(** * buildings3d: OSM footprints to an extruded, coloured 3D scene

    A shallow embedding of [buildings3d.py].  Python floats are IEEE
    binary64 numbers, modelled by Rocq's primitive floats; the attribute
    dictionary of a footprint is a finite map from tag names to values;
    exceptions are an explicit result type.  The external libraries
    (shapely, trimesh, geopandas, osmnx) are an interface the pipeline is
    parameterised over. *)

From Stdlib Require Import ZArith Floats Ascii.
From stdpp Require Import gmap strings list fin_maps.

#[local] Set Warnings "-inexact-float".
#[local] Open Scope string_scope.

(** ** Exceptions *)

Inductive exn :=
| ValueError (msg : string)
| TypeError (msg : string)
| KeyError (key : string)
| RuntimeError (msg : string)
| LibraryError (msg : string).

Inductive result (A : Type) :=
| Ok (a : A)
| Raise (e : exn).
Arguments Ok {A} a.
Arguments Raise {A} e.

(** [str(e)] of an exception: its message. *)
Definition exn_str (e : exn) : string :=
  match e with
  | ValueError m | TypeError m | KeyError m | RuntimeError m | LibraryError m => m
  end.

(** ** The Python runtime the module relies on

    Text is a string of bytes; the functions below are those of [str] on
    the ASCII range, where all the words the module compares with lie. *)

Module Py.

Definition code (c : ascii) : N := N_of_ascii c.

(** [str.isspace] on the ASCII range: tab .. carriage return, the four
    separators 0x1c .. 0x1f, and the blank. *)
Definition is_space (c : ascii) : bool :=
  let n := code c in
  ((9 <=? n) && (n <=? 13) || (28 <=? n) && (n <=? 32))%N.

(** [str.lower] on the ASCII range. *)
Definition lower_char (c : ascii) : ascii :=
  let n := code c in
  if ((65 <=? n) && (n <=? 90))%N then ascii_of_N (n + 32) else c.

Fixpoint lower (s : string) : string :=
  match s with
  | EmptyString => EmptyString
  | String c s' => String (lower_char c) (lower s')
  end.

(** [s.replace("m", "")]: every occurrence of the letter is removed. *)
Fixpoint replace_m (s : string) : string :=
  match s with
  | EmptyString => EmptyString
  | String c s' => if Ascii.eqb c "m" then replace_m s' else String c (replace_m s')
  end.

Fixpoint lstrip (s : string) : string :=
  match s with
  | EmptyString => EmptyString
  | String c s' => if is_space c then lstrip s' else s
  end.

Fixpoint rstrip (s : string) : string :=
  match s with
  | EmptyString => EmptyString
  | String c s' =>
      match rstrip s' with
      | EmptyString => if is_space c then EmptyString else String c EmptyString
      | r => String c r
      end
  end.

(** [s.strip()] *)
Definition strip (s : string) : string := rstrip (lstrip s).

(** *** [float(str)]

    The grammar of the language reference:
      digitpart   ::= digit (["_"] digit)*
      number      ::= [digitpart] "." digitpart | digitpart ["."]
      exponent    ::= ("e" | "E") [sign] digitpart
      floatvalue  ::= [sign] (number [exponent] | "inf" | "infinity" | "nan")
    surrounded by optional whitespace, letters in any case.  The decimal
    value is rounded to the nearest binary64 number, ties to even. *)

Definition digit_of (c : ascii) : option Z :=
  let n := code c in
  if ((48 <=? n) && (n <=? 57))%N then Some (Z.of_N n - 48)%Z else None.

(** After a first digit: more digits, each optionally preceded by one
    underscore.  Returns the accumulated value, the number of digits read
    and the unread rest. *)
Fixpoint digits_rest (s : string) (acc : Z) (n : Z) : Z * Z * string :=
  match s with
  | EmptyString => (acc, n, s)
  | String c s' =>
      match digit_of c with
      | Some d => digits_rest s' (10 * acc + d)%Z (n + 1)%Z
      | None =>
          if Ascii.eqb c "_" then
            match s' with
            | String c2 s'' =>
                match digit_of c2 with
                | Some d => digits_rest s'' (10 * acc + d)%Z (n + 1)%Z
                | None => (acc, n, s)
                end
            | EmptyString => (acc, n, s)
            end
          else (acc, n, s)
      end
  end.

Definition digitpart (s : string) (acc : Z) : option (Z * Z * string) :=
  match s with
  | String c s' =>
      match digit_of c with
      | Some d => Some (digits_rest s' (10 * acc + d)%Z 1%Z)
      | None => None
      end
  | EmptyString => None
  end.

(** [number]: the digits read as one integer, the count of digits after
    the point, and the unread rest. *)
Definition number (s : string) : option (Z * Z * string) :=
  match digitpart s 0%Z with
  | Some (m, _, String "." r) =>
      match digitpart r m with
      | Some (m', k, r') => Some (m', k, r')
      | None => Some (m, 0%Z, r)
      end
  | Some (m, _, r) => Some (m, 0%Z, r)
  | None =>
      match s with
      | String "." r => digitpart r 0%Z
      | _ => None
      end
  end.

Definition sign (s : string) : bool * string :=
  match s with
  | String "-" r => (true, r)
  | String "+" r => (false, r)
  | _ => (false, s)
  end.

(** The exponent, when the rest starts with one; [None] when the rest
    cannot be read to its end. *)
Definition exponent (s : string) : option Z :=
  match s with
  | EmptyString => Some 0%Z
  | String c r =>
      if Ascii.eqb (lower_char c) "e" then
        let '(neg, r') := sign r in
        match digitpart r' 0%Z with
        | Some (e, _, EmptyString) => Some (if neg then (- e)%Z else e)
        | _ => None
        end
      else None
  end.

(** [m * 10 ^ e10], negated when [neg], rounded to nearest even. *)
Definition decimal_to_float (neg : bool) (m : Z) (e10 : Z) : float :=
  SF2Prim
    match m with
    | Zpos p =>
        if (0 <=? e10)%Z then
          binary_round prec emax neg (Z.to_pos (Zpos p * 10 ^ e10)) 0%Z
        else
          SFdiv prec emax (S754_finite neg p 0%Z)
                          (S754_finite false (Z.to_pos (10 ^ (- e10))) 0%Z)
    | _ => S754_zero neg
    end.

Definition float_of_string (s : string) : result float :=
  let '(neg, body) := sign (strip s) in
  let word := lower body in
  if String.eqb word "inf" || String.eqb word "infinity" then
    Ok (if neg then neg_infinity else infinity)
  else if String.eqb word "nan" then Ok nan
  else
    match number body with
    | Some (m, k, r) =>
        match exponent r with
        | Some e => Ok (decimal_to_float neg m (e - k)%Z)
        | None => Raise (ValueError ("could not convert string to float: " +:+ s))
        end
    | None => Raise (ValueError ("could not convert string to float: " +:+ s))
    end.

(** [max(a, b)]: the first argument unless the second compares greater. *)
Definition max (a b : float) : float := if (a <? b)%float then b else a.

(** [max(items, key=key)]: the first item whose key no later key exceeds;
    an empty sequence raises. *)
Fixpoint max_key_from {A} (key : A -> float) (best : A) (items : list A) : A :=
  match items with
  | [] => best
  | x :: rest => max_key_from key (if (key best <? key x)%float then x else best) rest
  end.

Definition max_key {A} (key : A -> float) (items : list A) : result A :=
  match items with
  | [] => Raise (ValueError "max() iterable argument is empty")
  | x :: rest => Ok (max_key_from key x rest)
  end.

End Py.

(** ** Attribute values and the attribute dictionary

    A footprint's attributes come from a row of the fetched table: a tag
    is a string, a missing or numeric cell is a float, and [None] may
    stand for an absent value. *)

Inductive value :=
| VNone
| VStr (s : string)
| VNum (x : float).

Abbreviation attrs_t := (gmap string value).

(** [float(v)] *)
Definition py_float (v : value) : result float :=
  match v with
  | VNone => Raise (TypeError "float() argument must be a string or a real number, not 'NoneType'")
  | VStr s => Py.float_of_string s
  | VNum x => Ok x
  end.

(** [float(str(v).replace("m", "").strip())].  The text of a float is its
    shortest decimal form that reads back as the same float, and has no
    letter m in it. *)
Definition py_float_of_text (v : value) : result float :=
  match v with
  | VNone => Py.float_of_string (Py.strip (Py.replace_m "None"))
  | VStr s => Py.float_of_string (Py.strip (Py.replace_m s))
  | VNum x => Ok x
  end.

(** ** Config *)

Definition DEFAULT_LEVEL_HEIGHT_M : float := 3.2%float.
Definition MIN_HEIGHT_M : float := 3.0%float.

Definition rgba : Type := Z * Z * Z * Z.

Definition COLOR_MAP : list (string * rgba) :=
  [ ("residential", (80, 160, 255, 255));
    ("commercial",  (255, 160, 60, 255));
    ("industrial",  (180, 180, 180, 255));
    ("retail",      (255, 120, 120, 255));
    ("office",      (255, 210, 80, 255));
    ("education",   (160, 120, 255, 255));
    ("hospital",    (250, 120, 200, 255));
    ("public",      (120, 220, 180, 255));
    ("default",     (200, 200, 200, 255)) ]%Z.

(** [key in d] and [d[key]] on a dictionary written as a literal. *)
Fixpoint dict_get {A} (d : list (string * A)) (key : string) : option A :=
  match d with
  | [] => None
  | (k, v) :: rest => if String.eqb key k then Some v else dict_get rest key
  end.

Definition dict_contains {A} (d : list (string * A)) (key : string) : bool :=
  match dict_get d key with Some _ => true | None => false end.

Definition dict_item {A} (d : list (string * A)) (key : string) : result A :=
  match dict_get d key with
  | Some v => Ok v
  | None => Raise (KeyError key)
  end.

(** [val in (w1, ..., wn)] on strings. *)
Definition str_in (val : string) (words : list string) : bool :=
  existsb (String.eqb val) words.

(** ** Height and colour of a footprint *)

(** [attrs[key] not in (None, "", "NaN")]: a float equals none of them. *)
Definition not_blank (v : value) : bool :=
  match v with
  | VNone => false
  | VStr s => negb (String.eqb s "" || String.eqb s "NaN")
  | VNum _ => true
  end.

(** The loop [for key in keys: if key in attrs and ...: try: x = conv(...);
    break; except ValueError: pass], leaving [None] when no key gave a
    value.  Another exception than [ValueError] leaves the function. *)
Fixpoint first_number (conv : value -> result float) (attrs : attrs_t)
    (keys : list string) : result (option float) :=
  match keys with
  | [] => Ok None
  | key :: rest =>
      match attrs !! key with
      | Some v =>
          if not_blank v then
            match conv v with
            | Ok x => Ok (Some x)
            | Raise (ValueError _) => first_number conv attrs rest
            | Raise e => Raise e
            end
          else first_number conv attrs rest
      | None => first_number conv attrs rest
      end
  end.

Definition _footprint_height (attrs : attrs_t) : result float :=
  match first_number py_float_of_text attrs ["height"; "building:height"] with
  | Raise e => Raise e
  | Ok (Some h) => Ok h
  | Ok None =>
      match first_number py_float attrs ["building:levels"; "levels"] with
      | Raise e => Raise e
      | Ok (Some levels) => Ok (Py.max (levels * DEFAULT_LEVEL_HEIGHT_M) MIN_HEIGHT_M)
      | Ok None => Ok MIN_HEIGHT_M
      end
  end.

(** The body of the colour loop for one key whose value is a string:
    [Some] is a [return], [None] goes on to the next key. *)
Definition color_of_word (val : string) : option (result rgba) :=
  let val := Py.lower val in
  if dict_contains COLOR_MAP val then Some (dict_item COLOR_MAP val)
  else if str_in val ["apartments"; "house"; "residential"] then Some (dict_item COLOR_MAP "residential")
  else if str_in val ["retail"; "shop"; "mall"] then Some (dict_item COLOR_MAP "retail")
  else if str_in val ["commercial"; "hotel"] then Some (dict_item COLOR_MAP "commercial")
  else if str_in val ["industrial"; "warehouse"] then Some (dict_item COLOR_MAP "industrial")
  else if str_in val ["school"; "university"; "college"] then Some (dict_item COLOR_MAP "education")
  else if str_in val ["hospital"; "clinic"] then Some (dict_item COLOR_MAP "hospital")
  else if str_in val ["office"] then Some (dict_item COLOR_MAP "office")
  else None.

Fixpoint color_loop (attrs : attrs_t) (keys : list string) : result rgba :=
  match keys with
  | [] => dict_item COLOR_MAP "default"
  | key :: rest =>
      match attrs !! key with
      | Some (VStr val) =>
          match color_of_word val with
          | Some r => r
          | None => color_loop attrs rest
          end
      | _ => color_loop attrs rest
      end
  end.

Definition _footprint_color (attrs : attrs_t) : result rgba :=
  color_loop attrs ["building:use"; "landuse"; "building"].

(** ** Geometry, tables and the external libraries *)

Inductive geometry (P : Type) :=
| Polygon (p : P)
| MultiPolygon (geoms : list P)
| OtherGeometry.
Arguments Polygon {P} p.
Arguments MultiPolygon {P} geoms.
Arguments OtherGeometry {P}.

Inductive CRS :=
| EPSG4326
| EPSG3857
| UTM (zone : Z) (north : bool)
| OtherCRS (name : string).

(** A metric coordinate reference system: its unit is the metre. *)
Definition metric (c : CRS) : bool :=
  match c with
  | EPSG3857 | UTM _ _ => true
  | EPSG4326 | OtherCRS _ => false
  end.

(** A row of the table: its geometry cell (possibly empty) and the tags. *)
Record Row (P : Type) := mkRow {
  row_geometry : option (geometry P);
  row_attrs : attrs_t
}.
Arguments mkRow {P} _ _.
Arguments row_geometry {P} _.
Arguments row_attrs {P} _.

Record GeoDataFrame (P : Type) := mkGDF {
  gdf_crs : option CRS;
  gdf_rows : list (Row P)
}.
Arguments mkGDF {P} _ _.
Arguments gdf_crs {P} _.
Arguments gdf_rows {P} _.

Definition bbox : Type := float * float * float * float.

(** What the module calls in shapely, trimesh, geopandas and osmnx. *)
Class Libraries := {
  polygon : Type;
  mesh : Type;
  (* shapely *)
  is_valid : polygon -> bool;
  area : polygon -> float;
  buffer : polygon -> float -> geometry polygon;
  simplify_preserve_topology : polygon -> float -> polygon;
  (* trimesh.creation *)
  extrude_polygon : geometry polygon -> float -> result mesh;
  (* pyproj, through geopandas *)
  transform : CRS -> CRS -> polygon -> polygon;
  estimate_utm_crs : GeoDataFrame polygon -> result (Z * bool);
  (* osmnx *)
  bbox_from_point : float -> float -> float -> bbox;
  features_from_bbox : bbox -> result (GeoDataFrame polygon)
}.

(** ** OSM3DConfig *)

Record OSM3DConfig := mkConfig {
  lat : float;
  lon : float;
  radius_m : float;
  simplify : bool;
  merge_multipolygons : bool
}.


Section Pipeline.
Context `{L : Libraries}.

Definition _bbox_from_point_m (lat lon dist_m : float) : bbox :=
  let '(north, south, east, west) := bbox_from_point lat lon dist_m in
  (north, south, east, west).

(** *** _polygon_to_trimesh

    The calls of the extrusion routine are logged, in order. *)

Definition extrude_call : Type := geometry polygon * float.

(** The polygon the extrusion works on: the argument when it is valid,
    else what [buffer(0)] makes of it. *)
Definition repair (poly : polygon) : result polygon :=
  if negb (is_valid poly) then
    match buffer poly 0 with
    | Polygon p => Ok p
    | MultiPolygon geoms => Py.max_key area geoms
    | OtherGeometry => Raise (ValueError "Invalid polygon after buffer(0)")
    end
  else Ok poly.

Definition extrude_with_retry (poly : polygon) (height : float)
    : result mesh * list extrude_call :=
  let h := Py.max height MIN_HEIGHT_M in
  match extrude_polygon (Polygon poly) h with
  | Ok m => (Ok m, [(Polygon poly, h)])
  | Raise _ =>
      let poly2 := buffer poly 0.05 in
      (extrude_polygon poly2 h, [(Polygon poly, h); (poly2, h)])
  end.

Definition _polygon_to_trimesh_log (poly : polygon) (height : float)
    : result mesh * list extrude_call :=
  match repair poly with
  | Raise e => (Raise e, [])
  | Ok poly =>
      if (area poly <=? 1e-12)%float then (Raise (ValueError "Polygon too small"), [])
      else extrude_with_retry poly height
  end.

Definition _polygon_to_trimesh (poly : polygon) (height : float) : result mesh :=
  fst (_polygon_to_trimesh_log poly height).

(** *** fetch_buildings_gdf *)

Definition set_crs (gdf : GeoDataFrame polygon) (c : CRS) : GeoDataFrame polygon :=
  mkGDF (Some c) (gdf_rows gdf).

Definition map_geometry (f : polygon -> polygon) (g : geometry polygon) : geometry polygon :=
  match g with
  | Polygon p => Polygon (f p)
  | MultiPolygon geoms => MultiPolygon (map f geoms)
  | OtherGeometry => OtherGeometry
  end.

Definition map_rows (f : polygon -> polygon) (rows : list (Row polygon)) : list (Row polygon) :=
  map (fun r => mkRow (map_geometry f <$> row_geometry r) (row_attrs r)) rows.

(** [gdf.to_crs(target)]: a table without a CRS cannot be transformed. *)
Definition to_crs (gdf : GeoDataFrame polygon) (target : CRS) : result (GeoDataFrame polygon) :=
  match gdf_crs gdf with
  | None => Raise (ValueError "Cannot transform naive geometries.  Please set a crs on the object first.")
  | Some src => Ok (mkGDF (Some target) (map_rows (transform src target) (gdf_rows gdf)))
  end.

Definition assume_wgs84 (gdf : GeoDataFrame polygon) : GeoDataFrame polygon :=
  match gdf_crs gdf with
  | None => set_crs gdf EPSG4326
  | Some _ => gdf
  end.

(** The [try: ... except Exception: ...] block that reprojects the table. *)
Definition reproject_metric (gdf : GeoDataFrame polygon) : result (GeoDataFrame polygon) :=
  let gdf := assume_wgs84 gdf in
  let attempt :=
    match estimate_utm_crs gdf with
    | Ok (zone, north) => to_crs gdf (UTM zone north)
    | Raise e => Raise e
    end in
  match attempt with
  | Ok gdf' => Ok gdf'
  | Raise _ => to_crs (assume_wgs84 gdf) EPSG3857
  end.

Definition is_polygonal (r : Row polygon) : bool :=
  match row_geometry r with
  | Some (Polygon _) | Some (MultiPolygon _) => true
  | _ => false
  end.

(** [gdf.explode(ignore_index=True)]: one row per part. *)
Definition explode_row (r : Row polygon) : list (Row polygon) :=
  match row_geometry r with
  | Some (MultiPolygon geoms) => map (fun p => mkRow (Some (Polygon p)) (row_attrs r)) geoms
  | _ => [r]
  end.

Definition explode (rows : list (Row polygon)) : list (Row polygon) :=
  concat (map explode_row rows).

Definition fetch_buildings_gdf (cfg : OSM3DConfig) : result (GeoDataFrame polygon) :=
  let box := _bbox_from_point_m (lat cfg) (lon cfg) (radius_m cfg) in
  match features_from_bbox box with
  | Raise e => Raise (RuntimeError ("No se pudo descargar datos OSM: " +:+ exn_str e))
  | Ok gdf =>
      match reproject_metric gdf with
      | Raise e => Raise e
      | Ok gdf =>
          let rows := List.filter is_polygonal (gdf_rows gdf) in
          match rows with
          | [] => Ok (mkGDF (gdf_crs gdf) rows)
          | _ =>
              let rows := if merge_multipolygons cfg then explode rows else rows in
              let rows :=
                if simplify cfg
                then map_rows (fun p => simplify_preserve_topology p 0.05) rows
                else rows in
              Ok (mkGDF (gdf_crs gdf) rows)
          end
      end
  end.

(** *** build_glb_from_osm *)

(** A mesh of the scene with the colour given to all its vertices. *)
Definition Scene : Type := list (mesh * rgba).

(** The inner loop over the polygons of one row; a polygon that raises
    is skipped. *)
Fixpoint add_polygons (polys : list polygon) (height : float) (color : rgba)
    (scene : Scene) (count : nat) : Scene * nat :=
  match polys with
  | [] => (scene, count)
  | poly :: rest =>
      match _polygon_to_trimesh poly (Py.max height MIN_HEIGHT_M) with
      | Ok m => add_polygons rest height color (scene ++ [(m, color)])%list (S count)
      | Raise _ => add_polygons rest height color scene count
      end
  end.

(** The outer loop over the rows.  An exception of the height or colour
    derivation is outside the [try] and ends the run. *)
Fixpoint add_rows (rows : list (Row polygon)) (scene : Scene) (count : nat)
    : result (Scene * nat) :=
  match rows with
  | [] => Ok (scene, count)
  | row :: rest =>
      match row_geometry row with
      | None => add_rows rest scene count
      | Some geom =>
          match _footprint_height (row_attrs row) with
          | Raise e => Raise e
          | Ok height =>
              match _footprint_color (row_attrs row) with
              | Raise e => Raise e
              | Ok color =>
                  match geom with
                  | Polygon p =>
                      let '(scene, count) := add_polygons [p] height color scene count in
                      add_rows rest scene count
                  | MultiPolygon geoms =>
                      let '(scene, count) := add_polygons geoms height color scene count in
                      add_rows rest scene count
                  | OtherGeometry => add_rows rest scene count
                  end
              end
          end
      end
  end.

(** The value returned and the file written: the scene exported at the
    returned path. *)
Record Export := mkExport {
  export_path : string;
  export_scene : Scene
}.

Definition build_glb_from_osm (cfg : OSM3DConfig) (out_path : string) : result Export :=
  match fetch_buildings_gdf cfg with
  | Raise e => Raise e
  | Ok gdf =>
      match gdf_rows gdf with
      | [] => Raise (RuntimeError "No se encontraron edificios en el área seleccionada. Intenta aumentar el radio.")
      | _ =>
          match add_rows (gdf_rows gdf) [] 0 with
          | Raise e => Raise e
          | Ok (scene, count) =>
              if Nat.eqb count 0 then Raise (RuntimeError "No se pudo crear ninguna malla.")
              else Ok (mkExport out_path scene)
          end
      end
  end.

End Pipeline.

(** ** The rules of the specification, for comparison with the code *)

(** The number a tag gives: the tag is present, is none of the blank
    values, and [conv] reads it. *)
Definition tag_number (conv : value -> result float) (attrs : attrs_t) (key : string)
    : option float :=
  match attrs !! key with
  | Some v =>
      if not_blank v then
        match conv v with
        | Ok x => Some x
        | Raise _ => None
        end
      else None
  | None => None
  end.

(** First rule: a height tag, read after the unit marker is stripped. *)
Definition height_tag (attrs : attrs_t) : option float :=
  match tag_number py_float_of_text attrs "height" with
  | Some h => Some h
  | None => tag_number py_float_of_text attrs "building:height"
  end.

(** Second rule: a levels tag. *)
Definition levels_tag (attrs : attrs_t) : option float :=
  match tag_number py_float attrs "building:levels" with
  | Some l => Some l
  | None => tag_number py_float attrs "levels"
  end.

Definition height_rules (attrs : attrs_t) : float :=
  match height_tag attrs with
  | Some h => h
  | None =>
      match levels_tag attrs with
      | Some levels => Py.max (levels * 3.2) 3.0
      | None => 3.0%float
      end
  end.

(** The synonym table. *)
Definition SYNONYMS : list (string * string) :=
  [ ("apartments", "residential"); ("house", "residential");
    ("retail", "retail"); ("shop", "retail"); ("mall", "retail");
    ("commercial", "commercial"); ("hotel", "commercial");
    ("industrial", "industrial"); ("warehouse", "industrial");
    ("school", "education"); ("university", "education"); ("college", "education");
    ("hospital", "hospital"); ("clinic", "hospital");
    ("office", "office") ].

Definition default_gray : rgba := (200, 200, 200, 255)%Z.

(** The palette entry a word stands for, compared in lower case: a key of
    the palette itself, or a synonym of one. *)
Definition category_of (word : string) : option string :=
  let w := Py.lower word in
  if dict_contains COLOR_MAP w then Some w else dict_get SYNONYMS w.

Definition tag_category (attrs : attrs_t) (key : string) : option string :=
  match attrs !! key with
  | Some (VStr s) => category_of s
  | _ => None
  end.

Definition palette (c : string) : rgba := default default_gray (dict_get COLOR_MAP c).

Definition color_rules (attrs : attrs_t) : rgba :=
  match tag_category attrs "building:use" with
  | Some c => palette c
  | None =>
      match tag_category attrs "landuse" with
      | Some c => palette c
      | None =>
          match tag_category attrs "building" with
          | Some c => palette c
          | None => default_gray
          end
      end
  end.

Definition alpha (c : rgba) : Z := snd c.

(** A message that tells the user to widen the search radius. *)
Fixpoint is_prefix (p s : string) : bool :=
  match p, s with
  | EmptyString, _ => true
  | String a p', String b s' => Ascii.eqb a b && is_prefix p' s'
  | String _ _, EmptyString => false
  end.

Fixpoint contains (needle hay : string) : bool :=
  is_prefix needle hay ||
  match hay with
  | EmptyString => false
  | String _ hay' => contains needle hay'
  end.

Definition suggests_wider_radius (msg : string) : bool := contains "aumentar el radio" msg.

(** A sanitized polygon: valid, with an area above the threshold. *)
Definition sanitized `{L : Libraries} (p : polygon) : bool :=
  is_valid p && (1e-12 <? area p)%float.

(** The meshes a run adds to the scene, in order: one per polygon that
    extrudes, with the colour of its row. *)
Section Meshes.
Context `{L : Libraries}.

Definition extruded (polys : list polygon) (height : float) (color : rgba) : Scene :=
  omap (fun p =>
          match _polygon_to_trimesh p (Py.max height MIN_HEIGHT_M) with
          | Ok m => Some (m, color)
          | Raise _ => None
          end) polys.

Definition row_meshes (r : Row polygon) : Scene :=
  match row_geometry r with
  | Some (Polygon p) => extruded [p] (height_rules (row_attrs r)) (color_rules (row_attrs r))
  | Some (MultiPolygon geoms) => extruded geoms (height_rules (row_attrs r)) (color_rules (row_attrs r))
  | _ => []
  end.

Definition scene_of_rows (rows : list (Row polygon)) : Scene :=
  concat (map row_meshes rows).

(** A row that holds one simple, non-degenerate polygon. *)
Definition simple_row (r : Row polygon) : bool :=
  match row_geometry r with
  | Some (Polygon p) => sanitized p
  | _ => false
  end.
End Meshes.

Definition NO_BUILDINGS : string :=
  "No se encontraron edificios en el área seleccionada. Intenta aumentar el radio.".
Definition NO_MESH : string := "No se pudo crear ninguna malla.".

(** ** A small instance of the libraries, to run the pipeline on *)

Record toy_polygon := mkToy {
  toy_valid : bool;
  toy_area : float;
  toy_extrudes : bool;
  toy_parts : list float
}.

Definition toy_part (a : float) : toy_polygon := mkToy true a true [].

Definition toy_buffer (p : toy_polygon) (d : float) : geometry toy_polygon :=
  if (d =? 0)%float then
    match toy_parts p with
    | [] => OtherGeometry
    | [a] => Polygon (toy_part a)
    | parts => MultiPolygon (map toy_part parts)
    end
  else Polygon (mkToy true (toy_area p + d) true []).

Definition toy_extrude (g : geometry toy_polygon) (h : float) : result (float * float) :=
  match g with
  | Polygon p =>
      if toy_extrudes p then Ok (toy_area p, h)
      else Raise (LibraryError "triangulation failed")
  | _ => Raise (LibraryError "not a polygon")
  end.

Definition toy_libraries (fetched : result (GeoDataFrame toy_polygon)) : Libraries := {|
  polygon := toy_polygon;
  mesh := float * float;
  is_valid := toy_valid;
  area := toy_area;
  buffer := toy_buffer;
  simplify_preserve_topology := fun p _ => p;
  extrude_polygon := toy_extrude;
  transform := fun _ _ p => p;
  estimate_utm_crs := fun gdf =>
    match gdf_rows gdf with
    | [] => Raise (RuntimeError "Unable to determine UTM CRS")
    | _ => Ok (14%Z, true)
    end;
  bbox_from_point := fun lat lon d => ((lat + d)%float, (lat - d)%float, (lon + d)%float, (lon - d)%float);
  features_from_bbox := fun _ => fetched
|}.

Definition square (a : float) : toy_polygon := mkToy true a true [].
Definition sliver : toy_polygon := mkToy true 0 true [].
Definition stubborn : toy_polygon := mkToy true 9 false [].

Definition toy_table (polys : list toy_polygon) : GeoDataFrame toy_polygon :=
  mkGDF None (map (fun p => mkRow (Some (Polygon p)) (∅ : attrs_t)) polys).

(** ** The table the pipeline works on: counts and flags *)

(** The number of polygons in a geometry. *)
Definition parts_count {P} (g : geometry P) : nat :=
  match g with
  | Polygon _ => 1
  | MultiPolygon geoms => length geoms
  | OtherGeometry => 0
  end.

Definition row_parts {P} (r : Row P) : nat :=
  match row_geometry r with
  | Some g => parts_count g
  | None => 0
  end.

Definition is_single_polygon {P} (r : Row P) : bool :=
  match row_geometry r with
  | Some (Polygon _) => true
  | _ => false
  end.

(** The configuration with the flag [merge_multipolygons] set to [b]. *)
Definition with_merge (b : bool) (cfg : OSM3DConfig) : OSM3DConfig :=
  {| lat := lat cfg; lon := lon cfg; radius_m := radius_m cfg;
     simplify := simplify cfg; merge_multipolygons := b |}.

(** ** The application: the two buttons of the urban model

    [appMapsSearch.py] builds the file on one button and shows it on the
    other.  What a click puts on the page is a list of widgets. *)

Definition vertex : Type := float * float * float.
Definition face : Type := Z * Z * Z.

(** The arguments of [go.Mesh3d]: the three coordinate columns and the
    three index lists. *)
Record Mesh3d := mkMesh3d {
  mesh_x : list float;
  mesh_y : list float;
  mesh_z : list float;
  mesh_i : list Z;
  mesh_j : list Z;
  mesh_k : list Z
}.

Section Application.
Context `{L : Libraries}.

Inductive widget :=
| DownloadButton (label : string) (data : Scene) (file_name mime : string)
| Success (msg : string)
| Warning (msg : string)
| Error (msg : string)
| PlotlyChart (fig : Mesh3d).




(** A geometry of a loaded scene: a triangle mesh, or an object without
    faces (a path, a point cloud). *)
Inductive loaded :=
| LoadedMesh (vertices : list vertex) (faces : list face)
| LoadedOther.

(** [hasattr(g, "vertices") and hasattr(g, "faces") and len(g.faces) > 0] *)
Definition has_faces (g : loaded) : bool :=
  match g with
  | LoadedMesh _ (_ :: _) => true
  | _ => false
  end.

(** The state of the loop that gathers the meshes. *)
Record gather := mkGather {
  vertices_all : list (list vertex);
  acc_i : list Z;
  acc_j : list Z;
  acc_k : list Z;
  offset : Z
}.

Definition gather_step (st : gather) (g : loaded) : gather :=
  match g with
  | LoadedMesh verts ((f :: fs) as faces) =>
      {| vertices_all := vertices_all st ++ [verts];
         acc_i := acc_i st ++ map (fun t => (t.1.1 + offset st)%Z) faces;
         acc_j := acc_j st ++ map (fun t => (t.1.2 + offset st)%Z) faces;
         acc_k := acc_k st ++ map (fun t => (t.2 + offset st)%Z) faces;
         offset := (offset st + Z.of_nat (length verts))%Z |}
  | _ => st
  end.

Definition gather_all (geoms : list loaded) : gather :=
  fold_left gather_step geoms (mkGather [] [] [] [] 0).

(** The button "Ver modelo 3D urbano", on what [trimesh.load] returns for
    the file. *)
Definition view_glb_click (load : result (list loaded)) : list widget :=
  match load with
  | Raise e => [Error ("No se pudo visualizar GLB: " +:+ exn_str e)]
  | Ok geoms =>
      let st := gather_all geoms in
      match vertices_all st with
      | [] => [Warning "No se encontraron caras trianguladas."]
      | _ =>
          let V := concat (vertices_all st) in
          [PlotlyChart (mkMesh3d (map (fun v => v.1.1) V) (map (fun v => v.1.2) V)
                                 (map (fun v => v.2) V)
                                 (acc_i st) (acc_j st) (acc_k st))]
      end
  end.

End Application.

(** The vertex a figure holds at an index, and the corners of a triangle. *)
Definition mesh_vertex (fig : Mesh3d) (n : Z) : option vertex :=
  if (n <? 0)%Z then None
  else
    match mesh_x fig !! Z.to_nat n, mesh_y fig !! Z.to_nat n, mesh_z fig !! Z.to_nat n with
    | Some x, Some y, Some z => Some (x, y, z)
    | _, _, _ => None
    end.

Definition mesh_triangles (fig : Mesh3d) : list (option vertex * option vertex * option vertex) :=
  map (fun t => (mesh_vertex fig t.1.1, mesh_vertex fig t.1.2, mesh_vertex fig t.2))
      (zip (zip (mesh_i fig) (mesh_j fig)) (mesh_k fig)).

Definition corner (verts : list vertex) (n : Z) : option vertex :=
  if (n <? 0)%Z then None else verts !! Z.to_nat n.

(** The triangles of a loaded geometry that has faces; none otherwise. *)
Definition loaded_triangles (g : loaded)
    : list (option vertex * option vertex * option vertex) :=
  match g with
  | LoadedMesh verts ((_ :: _) as faces) =>
      map (fun t => (corner verts t.1.1, corner verts t.1.2, corner verts t.2)) faces
  | _ => []
  end.

(** Every index of every face names a vertex of its mesh. *)
Definition well_indexed (g : loaded) : Prop :=
  match g with
  | LoadedMesh verts faces =>
      Forall (fun t => (0 <= t.1.1 < Z.of_nat (length verts)) /\
                       (0 <= t.1.2 < Z.of_nat (length verts)) /\
                       (0 <= t.2 < Z.of_nat (length verts)))%Z faces
  | LoadedOther => True
  end.

(** The vertices and the faces the viewer keeps of a geometry: those of a
    mesh with at least one face. *)
Definition kept_vertices (g : loaded) : list vertex :=
  match g with
  | LoadedMesh verts (_ :: _) => verts
  | _ => []
  end.

Definition kept_faces (g : loaded) : list face :=
  match g with
  | LoadedMesh _ ((_ :: _) as faces) => faces
  | _ => []
  end.

(** The faces gathered so far, the corners of a face in a list of
    vertices, a face with its indices moved by an offset, and a face whose
    indices lie below a bound. *)
Definition acc_faces (st : gather) : list face :=
  zip (zip (acc_i st) (acc_j st)) (acc_k st).

Definition triangle_in (verts : list vertex) (t : face)
    : option vertex * option vertex * option vertex :=
  (corner verts t.1.1, corner verts t.1.2, corner verts t.2).

Definition shift_face (o : Z) (t : face) : face := (t.1.1 + o, t.1.2 + o, t.2 + o)%Z.

Definition in_range (n : Z) (t : face) : Prop :=
  (0 <= t.1.1 < n)%Z /\ (0 <= t.1.2 < n)%Z /\ (0 <= t.2 < n)%Z.

(** The rows [fetch_buildings_gdf] returns, from the polygonal rows of
    the reprojected table: exploded and simplified as the flags say. *)
Definition prepared_rows `{L : Libraries} (cfg : OSM3DConfig) (rows : list (Row polygon))
    : list (Row polygon) :=
  let rows := if merge_multipolygons cfg then explode rows else rows in
  if simplify cfg then map_rows (fun p => simplify_preserve_topology p 0.05) rows else rows.

(** A table with a two-part footprint and a sliver in it, a line, an
    empty cell and a plain footprint. *)
Definition toy_mixed_table : GeoDataFrame toy_polygon :=
  mkGDF None
    [ mkRow (Some (MultiPolygon [square 1; sliver; square 2])) {[ "building" := VStr "house" ]};
      mkRow (Some OtherGeometry) {[ "building" := VStr "yes" ]};
      mkRow None ∅;
      mkRow (Some (Polygon (square 5))) {[ "height" := VStr "20 m" ]} ].

(** ** Texts and numbers: what a text may hold, and cutting words out *)

Fixpoint all_chars (p : ascii -> bool) (s : string) : bool :=
  match s with
  | EmptyString => true
  | String c s' => p c && all_chars p s'
  end.

(** A character that can stand in a text [float] accepts: a blank, a
    digit, an underscore, a point, a sign, or a letter of an exponent, of
    inf, infinity or nan, in either case. *)
Definition float_char (c : ascii) : bool :=
  Py.is_space c ||
  match Py.digit_of c with Some _ => true | None => false end ||
  existsb (Ascii.eqb (Py.lower_char c)) ["_"; "."; "+"; "-"; "e"; "i"; "n"; "f"; "t"; "y"; "a"]%char.

(** [s.replace(x, "")] for a single character [x]. *)
Fixpoint remove_char (x : ascii) (s : string) : string :=
  match s with
  | EmptyString => EmptyString
  | String c s' => if Ascii.eqb c x then remove_char x s' else String c (remove_char x s')
  end.

(** ** Generador_Rascacielos_Bioclimatico: reading a number with units *)

Fixpoint drop_chars (n : nat) (s : string) : string :=
  match n, s with
  | O, _ => s
  | S k, String _ s' => drop_chars k s'
  | S _, EmptyString => EmptyString
  end.

(** [s.replace(old, "")]: the occurrences of [old] are cut out, from the
    left, without overlap.  Every step consumes a character, so the
    length of the text is fuel enough. *)
Fixpoint remove_fuel (fuel : nat) (old s : string) : string :=
  match fuel with
  | O => s
  | S f =>
      match s with
      | EmptyString => EmptyString
      | String c s' =>
          if is_prefix old s then remove_fuel f old (drop_chars (String.length old) s)
          else String c (remove_fuel f old s')
      end
  end.

Definition str_remove (old s : string) : string :=
  match old with
  | EmptyString => s
  | _ => remove_fuel (String.length s) old s
  end.

(** [leer_float_con_unidades], on the line the user types. *)
Definition leer_float_con_unidades (valor : string) : result float :=
  let valor := str_remove "," valor in
  let valor := str_remove "metros" (str_remove "m" (str_remove "m2" (str_remove "m²" valor))) in
  let valor := Py.strip valor in
  Py.float_of_string valor.

Fixpoint has_char (c : ascii) (s : string) : bool :=
  match s with
  | EmptyString => false
  | String x s' => Ascii.eqb x c || has_char c s'
  end.

(** * Properties *)

(** ** The order of binary64 numbers *)

Lemma SFcompare_antisym x y :
  SFcompare y x = option_map CompOpp (SFcompare x y).
Proof.
  destruct x as [sx|sx| |sx mx ex], y as [sy|sy| |sy my ey]; simpl; try reflexivity;
    try (destruct sx; reflexivity); try (destruct sy; reflexivity);
    try (destruct sx, sy; reflexivity).
  destruct sx, sy; simpl; try reflexivity;
    rewrite (Z.compare_antisym ey ex); destruct (ey ?= ex)%Z; simpl; try reflexivity;
    change (Pcompare my mx Eq) with (Pos.compare my mx);
    change (Pcompare mx my Eq) with (Pos.compare mx my);
    rewrite (Pos.compare_antisym my mx); destruct (my ?= mx)%positive; reflexivity.
Qed.







Lemma ltb_leb_false (a b : float) :
  (a <? b)%float = true -> (b <=? a)%float = false.
Proof.
  rewrite FloatAxioms.ltb_spec, FloatAxioms.leb_spec. unfold SFltb, SFleb.
  rewrite (SFcompare_antisym (Prim2SF a) (Prim2SF b)).
  destruct (SFcompare (Prim2SF a) (Prim2SF b)) as [[]|]; simpl; congruence.
Qed.


(** ** Reading numbers *)

Lemma float_of_string_raises s e :
  Py.float_of_string s = Raise e -> exists msg, e = ValueError msg.
Proof.
  unfold Py.float_of_string.
  destruct (Py.sign (Py.strip s)) as [neg body].
  destruct (_ || _); [discriminate|].
  destruct (String.eqb _ _); [discriminate|].
  destruct (Py.number body) as [[[m k] r]|]; [destruct (Py.exponent r)|];
    intros [= <-]; eauto.
Qed.

(** On a value that is not blank, both conversions either give a number
    or raise [ValueError], which the loops catch. *)
Lemma py_float_of_text_raises v e :
  py_float_of_text v = Raise e -> exists msg, e = ValueError msg.
Proof. destruct v; simpl; try discriminate; apply float_of_string_raises. Qed.

Lemma py_float_raises v e :
  not_blank v = true -> py_float v = Raise e -> exists msg, e = ValueError msg.
Proof. destruct v; simpl; try discriminate; intros _; apply float_of_string_raises. Qed.

Lemma first_number_cons conv attrs key rest :
  (forall v e, not_blank v = true -> conv v = Raise e -> exists msg, e = ValueError msg) ->
  first_number conv attrs (key :: rest) =
    match tag_number conv attrs key with
    | Some x => Ok (Some x)
    | None => first_number conv attrs rest
    end.
Proof.
  intros Hconv. unfold tag_number. simpl.
  destruct (attrs !! key) as [v|]; [|reflexivity].
  destruct (not_blank v) eqn:Hv; [|reflexivity].
  destruct (conv v) as [x|e] eqn:Hc; [reflexivity|].
  destruct (Hconv v e Hv Hc) as [msg ->]. reflexivity.
Qed.

Lemma height_loop attrs :
  first_number py_float_of_text attrs ["height"; "building:height"] = Ok (height_tag attrs).
Proof.
  rewrite !first_number_cons by (intros v e _; apply py_float_of_text_raises).
  unfold height_tag.
  destruct (tag_number py_float_of_text attrs "height"); [reflexivity|].
  destruct (tag_number py_float_of_text attrs "building:height"); reflexivity.
Qed.

Lemma levels_loop attrs :
  first_number py_float attrs ["building:levels"; "levels"] = Ok (levels_tag attrs).
Proof.
  rewrite !first_number_cons by apply py_float_raises.
  unfold levels_tag.
  destruct (tag_number py_float attrs "building:levels"); [reflexivity|].
  destruct (tag_number py_float attrs "levels"); reflexivity.
Qed.

Lemma footprint_height_rules attrs :
  _footprint_height attrs = Ok (height_rules attrs).
Proof.
  unfold _footprint_height, height_rules.
  rewrite height_loop. destruct (height_tag attrs); [reflexivity|].
  rewrite levels_loop. destruct (levels_tag attrs); reflexivity.
Qed.

(** ** Height *)




(** ** Colour *)

Lemma lower_char_idem c : Py.lower_char (Py.lower_char c) = Py.lower_char c.
Proof. destruct c as [[] [] [] [] [] [] [] []]; reflexivity. Qed.

Lemma lower_idem s : Py.lower (Py.lower s) = Py.lower s.
Proof. induction s as [|c s IH]; simpl; [reflexivity|]. now rewrite lower_char_idem, IH. Qed.

(** Case on whether the word [w] is the literal [k]. *)
Ltac word_is w k :=
  destruct (String.eqb_spec w k) as [->|?]; [vm_compute; reflexivity|].

(** The cascade of tests of the code is the lookup in the palette and in
    the synonym table. *)
Lemma color_of_word_category s :
  color_of_word s = (fun c => Ok (palette c)) <$> category_of s.
Proof.
  unfold color_of_word, category_of.
  generalize (Py.lower s) as w. intros w.
  unfold dict_contains, dict_item, str_in, COLOR_MAP, SYNONYMS, dict_get, existsb.
  word_is w "residential". word_is w "commercial". word_is w "industrial".
  word_is w "retail". word_is w "office". word_is w "education".
  word_is w "hospital". word_is w "public". word_is w "default".
  word_is w "apartments". word_is w "house". word_is w "shop". word_is w "mall".
  word_is w "hotel". word_is w "warehouse". word_is w "school".
  word_is w "university". word_is w "college". word_is w "clinic".
  reflexivity.
Qed.

Lemma color_loop_cons attrs key rest :
  color_loop attrs (key :: rest) =
    match tag_category attrs key with
    | Some c => Ok (palette c)
    | None => color_loop attrs rest
    end.
Proof.
  unfold tag_category. simpl.
  destruct (attrs !! key) as [[|s|x]|]; try reflexivity.
  rewrite color_of_word_category. destruct (category_of s); reflexivity.
Qed.

Lemma footprint_color_rules attrs :
  _footprint_color attrs = Ok (color_rules attrs).
Proof.
  unfold _footprint_color, color_rules. rewrite !color_loop_cons.
  destruct (tag_category attrs "building:use"); [reflexivity|].
  destruct (tag_category attrs "landuse"); [reflexivity|].
  destruct (tag_category attrs "building"); reflexivity.
Qed.

Lemma category_of_lower s : category_of (Py.lower s) = category_of s.
Proof. unfold category_of. now rewrite lower_idem. Qed.

Lemma category_in_palette s c :
  category_of s = Some c -> In (palette c) (map snd COLOR_MAP).
Proof.
  unfold category_of. generalize (Py.lower s) as w. intros w.
  unfold dict_contains, COLOR_MAP, SYNONYMS, dict_get.
  repeat match goal with
    | |- context [String.eqb w ?k] =>
        destruct (String.eqb_spec w k) as [->|?];
        [intros [= <-]; vm_compute; tauto|]
    end.
  discriminate.
Qed.

(** C4: the colour is found by trying [building:use], then [landuse],
    then [building]; the value of a tag, compared without regard to case,
    is looked up among the palette keys and the synonyms, and the first
    tag that matches decides; when none matches the colour is the default
    gray. *)
Theorem C4_color_priority_and_synonyms :
  (forall attrs : attrs_t,
     _footprint_color attrs =
       Ok match tag_category attrs "building:use" with
          | Some c => palette c
          | None =>
          match tag_category attrs "landuse" with
          | Some c => palette c
          | None =>
          match tag_category attrs "building" with
          | Some c => palette c
          | None => default_gray
          end end end) /\
  (forall (attrs : attrs_t) key s,
     _footprint_color (<[key := VStr s]> attrs) =
     _footprint_color (<[key := VStr (Py.lower s)]> attrs)) /\
  map category_of
      ["apartments"; "house"; "retail"; "shop"; "mall"; "commercial"; "hotel";
       "industrial"; "warehouse"; "school"; "university"; "college";
       "hospital"; "clinic"; "office"] =
    map Some
      ["residential"; "residential"; "retail"; "retail"; "retail"; "commercial"; "commercial";
       "industrial"; "industrial"; "education"; "education"; "education";
       "hospital"; "hospital"; "office"] /\
  _footprint_color {[ "building:use" := VStr "Residential" ]} = Ok (palette "residential") /\
  _footprint_color {[ "building" := VStr "warehouse" ]} = Ok (palette "industrial") /\
  _footprint_color ∅ = Ok default_gray.
Proof.
  split; [intros attrs; apply footprint_color_rules|].
  split.
  { intros attrs key s.
    assert (H : forall k, tag_category (<[key := VStr s]> attrs) k =
                          tag_category (<[key := VStr (Py.lower s)]> attrs) k).
    { intros k. unfold tag_category. destruct (decide (key = k)) as [->|Hne].
      - rewrite !lookup_insert_eq. symmetry. apply category_of_lower.
      - rewrite !lookup_insert_ne by done. reflexivity. }
    rewrite !footprint_color_rules. unfold color_rules. rewrite !H. reflexivity. }
  repeat split; vm_compute; reflexivity.
Qed.

(** C10: the colour classifier never raises and always returns one of the
    nine palette colours, each with alpha 255; a value that is not a
    string is passed over as if the tag were absent. *)
Theorem C10_color_total_in_palette :
  (forall attrs : attrs_t,
     exists c, _footprint_color attrs = Ok c /\ In c (map snd COLOR_MAP) /\ alpha c = 255%Z) /\
  length (map snd COLOR_MAP) = 9 /\
  NoDup (map snd COLOR_MAP) /\
  (forall (attrs : attrs_t) key x,
     _footprint_color (<[key := VNum x]> attrs) = _footprint_color (delete key attrs)) /\
  (forall (attrs : attrs_t) key,
     _footprint_color (<[key := VNone]> attrs) = _footprint_color (delete key attrs)).
Proof.
  assert (Hpal : forall c, In c (map snd COLOR_MAP) -> alpha c = 255%Z).
  { intros c H. vm_compute in H. intuition (subst; reflexivity). }
  assert (Hskip : forall (attrs : attrs_t) key v k,
             (forall s, v <> VStr s) ->
             tag_category (<[key := v]> attrs) k = tag_category (delete key attrs) k).
  { intros attrs key v k Hv. unfold tag_category.
    destruct (decide (key = k)) as [->|Hne].
    - rewrite lookup_insert_eq, lookup_delete_eq.
      destruct v as [|s|x]; [reflexivity|exfalso; exact (Hv s eq_refl)|reflexivity].
    - rewrite lookup_insert_ne, lookup_delete_ne by done. reflexivity. }
  split; [|split; [reflexivity|split; [|split]]].
  - intros attrs. exists (color_rules attrs).
    split; [apply footprint_color_rules|].
    assert (Hin : In (color_rules attrs) (map snd COLOR_MAP)).
    { unfold color_rules.
      destruct (tag_category attrs "building:use") as [c|] eqn:E1.
      { unfold tag_category in E1. destruct (attrs !! "building:use") as [[|s|x]|]; try discriminate.
        eapply category_in_palette; eassumption. }
      destruct (tag_category attrs "landuse") as [c|] eqn:E2.
      { unfold tag_category in E2. destruct (attrs !! "landuse") as [[|s|x]|]; try discriminate.
        eapply category_in_palette; eassumption. }
      destruct (tag_category attrs "building") as [c|] eqn:E3.
      { unfold tag_category in E3. destruct (attrs !! "building") as [[|s|x]|]; try discriminate.
        eapply category_in_palette; eassumption. }
      vm_compute. tauto. }
    split; [exact Hin|apply Hpal, Hin].
  - apply (bool_decide_unpack _). vm_compute. exact I.
  - intros attrs key x. rewrite !footprint_color_rules. unfold color_rules.
    rewrite !(Hskip attrs key (VNum x)) by discriminate. reflexivity.
  - intros attrs key. rewrite !footprint_color_rules. unfold color_rules.
    rewrite !(Hskip attrs key VNone) by discriminate. reflexivity.
Qed.

(** ** The largest part *)



(** ** The pipeline *)

Section PipelineFacts.
Context `{L : Libraries}.

Lemma sanitized_passes (p : polygon) :
  sanitized p = true -> repair p = Ok p /\ (area p <=? 1e-12)%float = false.
Proof.
  unfold sanitized, repair. intros [Hv Ha]%andb_true_iff.
  rewrite Hv. split; [reflexivity|exact (ltb_leb_false _ _ Ha)].
Qed.

Lemma extrude_with_retry_calls (p : polygon) (height : float) :
  Forall (fun call => snd call = Py.max height MIN_HEIGHT_M) (snd (extrude_with_retry p height)) /\
  (1 <= length (snd (extrude_with_retry p height)) <= 2)%nat.
Proof.
  unfold extrude_with_retry.
  destruct (extrude_polygon (Polygon p) _); simpl; split; repeat constructor.
Qed.

Lemma add_polygons_extruded polys height color scene count :
  add_polygons polys height color scene count =
    ((scene ++ extruded polys height color)%list,
     (count + length (extruded polys height color))%nat).
Proof.
  revert scene count. induction polys as [|p rest IH]; intros scene count; simpl.
  - now rewrite app_nil_r, Nat.add_0_r.
  - unfold extruded. simpl.
    destruct (_polygon_to_trimesh p (Py.max height MIN_HEIGHT_M)); rewrite IH; simpl.
    + unfold extruded. f_equal; [now rewrite <- app_assoc|lia].
    + reflexivity.
Qed.

Lemma scene_of_rows_cons (r : Row polygon) rest :
  scene_of_rows (r :: rest) = (row_meshes r ++ scene_of_rows rest)%list.
Proof. reflexivity. Qed.

(** The loop over the rows never raises: it adds the meshes of the rows
    and counts them. *)
Lemma add_rows_scene rows scene count :
  add_rows rows scene count =
    Ok ((scene ++ scene_of_rows rows)%list, (count + length (scene_of_rows rows))%nat).
Proof.
  revert scene count. induction rows as [|r rest IH]; intros scene count.
  - cbn. now rewrite app_nil_r, Nat.add_0_r.
  - rewrite scene_of_rows_cons. cbn [add_rows]. unfold row_meshes.
    destruct (row_geometry r) as [g|]; [|apply IH].
    rewrite footprint_height_rules, footprint_color_rules.
    destruct g as [p|geoms|]; [| |apply IH];
      rewrite add_polygons_extruded, IH, length_app, <- app_assoc;
      do 2 f_equal; lia.
Qed.

(** The reprojection never raises. *)
Lemma reproject_metric_target (gdf : GeoDataFrame polygon) :
  let src := default EPSG4326 (gdf_crs gdf) in
  let target :=
    match estimate_utm_crs (assume_wgs84 gdf) with
    | Ok (zone, north) => UTM zone north
    | Raise _ => EPSG3857
    end in
  reproject_metric gdf = Ok (mkGDF (Some target) (map_rows (transform src target) (gdf_rows gdf))).
Proof.
  unfold reproject_metric, to_crs, assume_wgs84.
  destruct gdf as [[c|] rows]; simpl;
    match goal with |- context [estimate_utm_crs ?g] =>
      destruct (estimate_utm_crs g) as [[zone north]|e] end; reflexivity.
Qed.


(** What a run returns, from the table fetched. *)
Lemma build_glb_outcome cfg out_path gdf :
  fetch_buildings_gdf cfg = Ok gdf ->
  build_glb_from_osm cfg out_path =
    match gdf_rows gdf with
    | [] => Raise (RuntimeError NO_BUILDINGS)
    | _ =>
        match scene_of_rows (gdf_rows gdf) with
        | [] => Raise (RuntimeError NO_MESH)
        | scene => Ok (mkExport out_path scene)
        end
    end.
Proof.
  intros Hf. unfold build_glb_from_osm. rewrite Hf.
  destruct (gdf_rows gdf) as [|r rest] eqn:Hrows; [reflexivity|].
  rewrite add_rows_scene. simpl.
  destruct (scene_of_rows (r :: rest)); reflexivity.
Qed.

(** C9: the reprojection never raises.  A table without a CRS is taken
    as WGS84; the target is the estimated UTM zone, or Web Mercator
    when the estimate fails; every row is transformed to that one
    target, which is metric. *)
Theorem C9_reprojection_never_fails (gdf : GeoDataFrame polygon) :
  exists target,
    reproject_metric gdf =
      Ok (mkGDF (Some target)
                (map_rows (transform (default EPSG4326 (gdf_crs gdf)) target) (gdf_rows gdf))) /\
    metric target = true /\
    gdf_crs (assume_wgs84 gdf) = Some (default EPSG4326 (gdf_crs gdf)) /\
    match estimate_utm_crs (assume_wgs84 gdf) with
    | Ok (zone, north) => target = UTM zone north
    | Raise _ => target = EPSG3857
    end.
Proof.
  pose proof (reproject_metric_target gdf) as H. cbv zeta in H.
  eexists. split; [exact H|].
  split; [|split].
  - destruct (estimate_utm_crs (assume_wgs84 gdf)) as [[zone north]|e]; reflexivity.
  - clear H. destruct gdf as [[c|] rows]; reflexivity.
  - destruct (estimate_utm_crs (assume_wgs84 gdf)) as [[zone north]|e]; reflexivity.
Qed.


(** C5: for a sanitized polygon the extrusion routine is called with
    the distance max(height, 3.0).  When that call succeeds its solid is
    returned; when it fails the routine is called exactly once more, on
    the polygon buffered by 0.05, with the same distance, and a second
    failure is raised for this polygon, which the loop then skips. *)
Theorem C5_extrusion_distance_and_single_retry (p : polygon) (height : float) :
  sanitized p = true ->
  let d := Py.max height MIN_HEIGHT_M in
  match extrude_polygon (Polygon p) d with
  | Ok m => _polygon_to_trimesh_log p height = (Ok m, [(Polygon p, d)])
  | Raise _ =>
      _polygon_to_trimesh_log p height =
        (extrude_polygon (buffer p 0.05) d, [(Polygon p, d); (buffer p 0.05, d)]) /\
      forall e, extrude_polygon (buffer p 0.05) d = Raise e ->
        _polygon_to_trimesh p height = Raise e /\
        forall rest h color scene count,
          Py.max h MIN_HEIGHT_M = height ->
          add_polygons (p :: rest) h color scene count = add_polygons rest h color scene count
  end.
Proof.
  intros Hs d. destruct (sanitized_passes p Hs) as [Hr Ha].
  unfold _polygon_to_trimesh, _polygon_to_trimesh_log. rewrite Hr, Ha.
  unfold extrude_with_retry. fold d.
  destruct (extrude_polygon (Polygon p) d) as [m|e0] eqn:E1; [reflexivity|].
  split; [reflexivity|]. intros e E2. split; [exact E2|].
  intros rest h color scene count <-. cbn [add_polygons].
  unfold _polygon_to_trimesh, _polygon_to_trimesh_log. rewrite Hr, Ha.
  unfold extrude_with_retry.
  assert (Hd : Py.max (Py.max h MIN_HEIGHT_M) MIN_HEIGHT_M = d) by reflexivity.
  rewrite Hd, E1. simpl. rewrite E2. reflexivity.
Qed.


(** C7, amended: when the table was fetched, the run fails exactly when
    no mesh was added, and otherwise exports the scene and returns the
    path.  The failure for an empty table advises a larger radius; the
    failure when footprints were fetched but none gave a mesh (all
    degenerate, for one) does not. *)
Theorem C7_fails_iff_no_mesh cfg out_path gdf :
  fetch_buildings_gdf cfg = Ok gdf ->
  let scene := scene_of_rows (gdf_rows gdf) in
  (scene = [] <-> exists e, build_glb_from_osm cfg out_path = Raise e) /\
  (gdf_rows gdf = [] -> build_glb_from_osm cfg out_path = Raise (RuntimeError NO_BUILDINGS)) /\
  (gdf_rows gdf <> [] -> scene = [] ->
     build_glb_from_osm cfg out_path = Raise (RuntimeError NO_MESH)) /\
  (scene <> [] -> build_glb_from_osm cfg out_path = Ok (mkExport out_path scene)) /\
  suggests_wider_radius NO_BUILDINGS = true /\
  suggests_wider_radius NO_MESH = false.
Proof.
  intros Hf scene. rewrite (build_glb_outcome _ _ _ Hf). subst scene.
  assert (Hadvice : suggests_wider_radius NO_BUILDINGS = true /\
                    suggests_wider_radius NO_MESH = false)
    by (split; vm_compute; reflexivity).
  destruct (gdf_rows gdf) as [|r rest] eqn:Hrows.
  - change (scene_of_rows []) with (@nil (mesh * rgba)).
    repeat split; try apply Hadvice; try congruence; eauto.
  - destruct (scene_of_rows (r :: rest)) as [|m ms] eqn:Hs.
    + repeat split; try apply Hadvice; try congruence; eauto.
    + repeat split; try apply Hadvice; try congruence.
      intros [e He]. discriminate.
Qed.

(** C8: N rows, each one simple non-degenerate polygon, give a scene of
    exactly N meshes, the extrusion routine accepting such polygons (at
    once or after the retry). *)
Theorem C8_one_mesh_per_simple_polygon (rows : list (Row polygon)) :
  (forall p h, sanitized p = true -> exists m, fst (extrude_with_retry p h) = Ok m) ->
  Forall (fun r => simple_row r = true) rows ->
  length (scene_of_rows rows) = length rows /\
  add_rows rows [] 0 = Ok (scene_of_rows rows, length rows) /\
  (forall cfg out_path gdf,
     fetch_buildings_gdf cfg = Ok gdf -> gdf_rows gdf = rows -> rows <> [] ->
     build_glb_from_osm cfg out_path = Ok (mkExport out_path (scene_of_rows rows))).
Proof.
  intros Hext Hrows.
  assert (Hlen : length (scene_of_rows rows) = length rows).
  { induction Hrows as [|r rest Hr _ IH]; [reflexivity|].
    rewrite scene_of_rows_cons, length_app, IH. simpl. f_equal.
    unfold simple_row in Hr. unfold row_meshes.
    destruct (row_geometry r) as [[p| |]|]; try discriminate.
    unfold extruded, _polygon_to_trimesh, _polygon_to_trimesh_log. simpl.
    destruct (sanitized_passes p Hr) as [-> ->].
    destruct (Hext p (Py.max (height_rules (row_attrs r)) MIN_HEIGHT_M) Hr) as [m ->].
    reflexivity. }
  split; [exact Hlen|]. split.
  - rewrite add_rows_scene, Hlen. reflexivity.
  - intros cfg out_path gdf Hf Hg Hne.
    rewrite (build_glb_outcome _ _ _ Hf), Hg.
    destruct rows as [|r rest]; [congruence|].
    destruct (scene_of_rows (r :: rest)); [discriminate|reflexivity].
Qed.

End PipelineFacts.

(** ** Runs on the small instance *)


(** C7, as stated, fails: when the only footprint is degenerate no mesh
    is added, and the error raised then does not advise a larger radius. *)
Lemma C7_no_mesh_without_advice :
  build_glb_from_osm (L := toy_libraries (Ok (toy_table [sliver])))
                     (mkConfig 19 (-99) 500 true true) "osm_buildings.glb" =
    Raise (RuntimeError "No se pudo crear ninguna malla.") /\
  suggests_wider_radius "No se pudo crear ninguna malla." = false.
Proof. split; vm_compute; reflexivity. Qed.

(** C5 at a polygon the routine refuses at first: one retry on the
    buffered polygon, with the distance max(2, 3) = 3. *)
Lemma C5_witness_retry :
  sanitized (L := toy_libraries (Ok (toy_table []))) stubborn = true /\
  _polygon_to_trimesh_log (L := toy_libraries (Ok (toy_table []))) stubborn 2 =
    (Ok ((9 + 0.05)%float, 3%float),
     [(Polygon stubborn, 3%float); (Polygon (mkToy true (9 + 0.05) true []), 3%float)]).
Proof.
  split; [reflexivity|].
  pose proof (C5_extrusion_distance_and_single_retry
                (L := toy_libraries (Ok (toy_table []))) stubborn 2 eq_refl) as H.
  vm_compute in H. vm_compute. exact (proj1 H).
Defined.


(** C7 on a table with one good footprint and on a table with only a
    sliver. *)
Lemma C7_witness_export_and_failure :
  build_glb_from_osm (L := toy_libraries (Ok (toy_table [square 100])))
                     (mkConfig 19 (-99) 500 true true) "osm_buildings.glb" =
    Ok (mkExport (L := toy_libraries (Ok (toy_table [square 100])))
                 "osm_buildings.glb" [((100, 3)%float, default_gray)]) /\
  build_glb_from_osm (L := toy_libraries (Ok (toy_table [sliver])))
                     (mkConfig 19 (-99) 500 true true) "osm_buildings.glb" =
    Raise (RuntimeError NO_MESH).
Proof.
  split.
  - destruct (C7_fails_iff_no_mesh
                (L := toy_libraries (Ok (toy_table [square 100])))
                (mkConfig 19 (-99) 500 true true) "osm_buildings.glb"
                (mkGDF (Some (UTM 14 true)) [mkRow (Some (Polygon (square 100))) ∅])
                eq_refl) as (_ & _ & _ & Hok & _).
    apply Hok. vm_compute. discriminate.
  - destruct (C7_fails_iff_no_mesh
                (L := toy_libraries (Ok (toy_table [sliver])))
                (mkConfig 19 (-99) 500 true true) "osm_buildings.glb"
                (mkGDF (Some (UTM 14 true)) [mkRow (Some (Polygon sliver)) ∅])
                eq_refl) as (_ & _ & Hfail & _).
    apply Hfail; [discriminate|reflexivity].
Defined.

(** C8 on three simple polygons, one of which needs the retry. *)
Lemma C8_witness_three_polygons :
  length (scene_of_rows (L := toy_libraries (Ok (toy_table [])))
            (gdf_rows (toy_table [square 100; stubborn; square 4]))) = 3%nat.
Proof.
  refine (proj1 (C8_one_mesh_per_simple_polygon
                   (L := toy_libraries (Ok (toy_table [])))
                   (gdf_rows (toy_table [square 100; stubborn; square 4])) _ _)).
  - intros p h _. unfold extrude_with_retry. simpl.
    destruct (toy_extrudes p); eexists; reflexivity.
  - repeat constructor.
Defined.

(** ** Reading numbers: checks against the interpreter *)

Example float_of_string_integer : Py.float_of_string "12" = Ok 12%float.
Proof. vm_compute. reflexivity. Qed.

Example float_of_string_blanks_sign_underscore_exponent :
  Py.float_of_string " -1_0.25e1 " = Ok (-102.5)%float.
Proof. vm_compute. reflexivity. Qed.

Example float_of_string_ties_to_even :
  Py.float_of_string "9007199254740993" = Ok 9007199254740992%float.
Proof. vm_compute. reflexivity. Qed.

Example float_of_string_overflow : Py.float_of_string "1e400" = Ok infinity.
Proof. vm_compute. reflexivity. Qed.

Example float_of_string_subnormal :
  Py.float_of_string "4.9e-324" = Ok 0x1p-1074%float.
Proof. vm_compute. reflexivity. Qed.

Example float_of_string_unit_left :
  Py.float_of_string "12m" = Raise (ValueError "could not convert string to float: 12m").
Proof. vm_compute. reflexivity. Qed.

Example replace_m_everywhere : Py.float_of_string (Py.strip (Py.replace_m "1m2 m")) = Ok 12%float.
Proof. vm_compute. reflexivity. Qed.

Example height_from_missing_cell :
  _footprint_height {[ "height" := VNum nan; "building:levels" := VStr "4" ]} = Ok nan.
Proof. vm_compute. reflexivity. Qed.

(** * Further properties of the code *)

(** ** The classifiers *)

Lemma tag_number_insert_blank conv (attrs : attrs_t) key v k :
  not_blank v = false ->
  tag_number conv (<[key := v]> attrs) k = tag_number conv (delete key attrs) k.
Proof.
  intros Hv. unfold tag_number. destruct (decide (key = k)) as [->|Hne].
  - rewrite lookup_insert_eq, lookup_delete_eq, Hv. reflexivity.
  - rewrite lookup_insert_ne, lookup_delete_ne by done. reflexivity.
Qed.

(** X1: a tag whose value is blank (None, the empty text, the text NaN) is
    the same as no tag, for any key. *)
Theorem height_blank_tag_as_absent (attrs : attrs_t) key v :
  not_blank v = false ->
  _footprint_height (<[key := v]> attrs) = _footprint_height (delete key attrs).
Proof.
  intros Hv. rewrite !footprint_height_rules.
  unfold height_rules, height_tag, levels_tag.
  rewrite !(tag_number_insert_blank _ attrs key v) by exact Hv. reflexivity.
Qed.

Lemma height_blank_tag_as_absent_witness :
  _footprint_height {[ "height" := VStr "NaN"; "building:levels" := VStr "4" ]} =
  _footprint_height (delete "height" ({[ "building:levels" := VStr "4" ]} : attrs_t)).
Proof.
  exact (height_blank_tag_as_absent {[ "building:levels" := VStr "4" ]} "height" (VStr "NaN") eq_refl).
Defined.

(** X2: height and colour read seven tags and nothing else: two mappings that
    agree on them are classified alike. *)
Theorem classification_reads_seven_tags (attrs attrs' : attrs_t) :
  (forall k, In k ["height"; "building:height"; "building:levels"; "levels";
                   "building:use"; "landuse"; "building"] ->
             attrs !! k = attrs' !! k) ->
  _footprint_height attrs = _footprint_height attrs' /\
  _footprint_color attrs = _footprint_color attrs'.
Proof.
  intros H. rewrite !footprint_height_rules, !footprint_color_rules.
  unfold height_rules, height_tag, levels_tag, color_rules, tag_number, tag_category.
  rewrite <- !H by (simpl; tauto). split; reflexivity.
Qed.

Lemma classification_reads_seven_tags_witness :
  _footprint_height {[ "height" := VStr "7"; "name" := VStr "Torre" ]} =
    _footprint_height {[ "height" := VStr "7" ]} /\
  _footprint_color {[ "height" := VStr "7"; "name" := VStr "Torre" ]} =
    _footprint_color {[ "height" := VStr "7" ]}.
Proof.
  apply classification_reads_seven_tags.
  intros k Hk. simpl in Hk.
  repeat (destruct Hk as [<-|Hk]; [vm_compute; reflexivity|]). destruct Hk.
Defined.

Lemma is_nan_ltb (x y : float) : is_nan x = true -> (x <? y)%float = false.
Proof.
  unfold is_nan. rewrite FloatAxioms.eqb_spec, FloatAxioms.ltb_spec.
  unfold SFeqb, SFltb. intros H.
  destruct (Prim2SF x) as [s|s| |s m e]; simpl in *.
  - discriminate.
  - destruct s; discriminate.
  - destruct (Prim2SF y); reflexivity.
  - destruct s; rewrite Z.compare_refl in H; simpl in H;
      change (Pcompare m m Eq) with (Pos.compare m m) in H;
      rewrite Pos.compare_refl in H; discriminate.
Qed.

(** X3: a float cell under [height] is returned as it is, whatever the other
    tags say; when it is not a number (the cell of a row without the tag)
    the extrusion distance is not a number either. *)
Theorem height_float_cell_returned (attrs : attrs_t) (x : float) :
  attrs !! "height" = Some (VNum x) ->
  _footprint_height attrs = Ok x /\
  (is_nan x = true -> is_nan (Py.max x MIN_HEIGHT_M) = true).
Proof.
  intros H. split.
  - rewrite footprint_height_rules. unfold height_rules, height_tag, tag_number.
    rewrite H. reflexivity.
  - intros Hn. unfold Py.max. rewrite (is_nan_ltb _ _ Hn). exact Hn.
Qed.

Lemma height_float_cell_returned_witness :
  _footprint_height {[ "height" := VNum nan; "building:levels" := VStr "4" ]} = Ok nan /\
  is_nan (Py.max nan MIN_HEIGHT_M) = true.
Proof.
  assert (Hcell : ({[ "height" := VNum nan; "building:levels" := VStr "4" ]} : attrs_t)
                    !! "height" = Some (VNum nan)) by (vm_compute; reflexivity).
  destruct (height_float_cell_returned _ nan Hcell) as [H1 H2].
  split; [exact H1|exact (H2 eq_refl)].
Defined.

Lemma replace_m_app a b :
  Py.replace_m (a +:+ b) = Py.replace_m a +:+ Py.replace_m b.
Proof.
  induction a as [|c a IH]; simpl; [reflexivity|].
  destruct (Ascii.eqb c "m"); simpl; now rewrite IH.
Qed.

(** X4: the unit marker is removed wherever it stands: a letter m inside the
    text of a height does not change what is read. *)
Theorem height_text_ignores_letter_m (s1 s2 : string) :
  py_float_of_text (VStr (s1 +:+ "m" +:+ s2)) = py_float_of_text (VStr (s1 +:+ s2)).
Proof.
  unfold py_float_of_text. rewrite !replace_m_app. reflexivity.
Qed.

(** X5: the word default is itself a key of the palette: as the value of
    [building:use], in any case, it ends the search with the default
    gray, whatever [landuse] and [building] say. *)
Theorem color_default_word_stops_search (attrs : attrs_t) (s : string) :
  Py.lower s = "default" ->
  _footprint_color (<["building:use" := VStr s]> attrs) = Ok default_gray.
Proof.
  intros Hs. rewrite footprint_color_rules. unfold color_rules, tag_category.
  rewrite lookup_insert_eq. unfold category_of. rewrite Hs. reflexivity.
Qed.

Lemma color_default_word_stops_search_witness :
  _footprint_color {[ "building:use" := VStr "Default"; "landuse" := VStr "residential" ]} =
    Ok default_gray.
Proof.
  exact (color_default_word_stops_search {[ "landuse" := VStr "residential" ]} "Default" eq_refl).
Defined.


Lemma max_min_height_idem (h : float) :
  Py.max (Py.max h MIN_HEIGHT_M) MIN_HEIGHT_M = Py.max h MIN_HEIGHT_M.
Proof.
  unfold Py.max. destruct (h <? MIN_HEIGHT_M)%float eqn:E; [reflexivity|now rewrite E].
Qed.

(** ** The extruder and the scene *)

Section ExtruderFacts.
Context `{L : Libraries}.

(** X6: the height is clamped twice, by the loop and by the extruder; the
    first clamp changes nothing. *)
Theorem clamp_before_extruder_is_redundant (p : polygon) (h : float) :
  _polygon_to_trimesh_log p (Py.max h MIN_HEIGHT_M) = _polygon_to_trimesh_log p h.
Proof.
  unfold _polygon_to_trimesh_log, extrude_with_retry.
  rewrite max_min_height_idem. reflexivity.
Qed.

(** X7: for every polygon, valid or not: the extrusion routine is called at
    most twice, always with the distance max(height, 3.0); a solid that
    is returned is the one of the last call; and an error comes either
    before any call (the polygon was rejected) or after both calls
    failed, never after the first call alone. *)
Theorem extrusion_calls_of_any_polygon (p : polygon) (h : float) :
  let out := _polygon_to_trimesh_log p h in
  let d := Py.max h MIN_HEIGHT_M in
  (length (snd out) <= 2)%nat /\
  Forall (fun call => snd call = d) (snd out) /\
  (forall m, fst out = Ok m ->
     exists g, last (snd out) = Some (g, d) /\ extrude_polygon g d = Ok m) /\
  (forall e, fst out = Raise e ->
     snd out = [] \/
     exists q, snd out = [(Polygon q, d); (buffer q 0.05, d)] /\
               (exists e0, extrude_polygon (Polygon q) d = Raise e0) /\
               extrude_polygon (buffer q 0.05) d = Raise e).
Proof.
  cbv zeta. unfold _polygon_to_trimesh_log.
  destruct (repair p) as [q|e0]; simpl.
  2: { repeat split; auto. intros m [=]. }
  destruct (area q <=? 1e-12)%float; simpl.
  { repeat split; auto. intros m [=]. }
  unfold extrude_with_retry.
  destruct (extrude_polygon (Polygon q) (Py.max h MIN_HEIGHT_M)) as [m0|e0] eqn:E1; simpl.
  - repeat split; auto.
    + intros m [= <-]. eexists. split; [reflexivity|exact E1].
    + intros e [=].
  - repeat split; auto.
    + intros m Hm. eexists. split; [reflexivity|exact Hm].
    + intros e He. right. exists q. repeat split; eauto.
Qed.

Lemma extruded_cons p rest h c :
  extruded (p :: rest) h c =
    match _polygon_to_trimesh p (Py.max h MIN_HEIGHT_M) with
    | Ok m => (m, c) :: extruded rest h c
    | Raise _ => extruded rest h c
    end.
Proof. unfold extruded. simpl. destruct (_polygon_to_trimesh p _); reflexivity. Qed.


Lemma extruded_length polys h c : (length (extruded polys h c) <= length polys)%nat.
Proof.
  induction polys as [|p rest IH]; [simpl; lia|].
  rewrite extruded_cons. destruct (_polygon_to_trimesh p _); simpl; lia.
Qed.


(** X9: the loop over the rows returns a counter equal to the number of
    meshes in the scene, and that number never exceeds the number of
    polygons in the table. *)
Theorem mesh_count_bounded_by_polygons (rows : list (Row polygon)) :
  exists scene,
    add_rows rows [] 0 = Ok (scene, length scene) /\
    (length scene <= sum_list (map row_parts rows))%nat.
Proof.
  exists (scene_of_rows rows). split; [rewrite add_rows_scene; reflexivity|].
  induction rows as [|r rest IH]; [simpl; lia|].
  rewrite scene_of_rows_cons, length_app. simpl.
  enough (length (row_meshes r) <= row_parts r)%nat by lia.
  unfold row_meshes, row_parts.
  destruct (row_geometry r) as [[p|geoms|]|]; cbn [parts_count length]; try lia.
  - apply (extruded_length [p]).
  - apply extruded_length.
Qed.


End ExtruderFacts.


(** ** Fetching the table *)

Section FetchFacts.
Context `{L : Libraries}.

Lemma map_rows_length f (rows : list (Row polygon)) : length (map_rows f rows) = length rows.
Proof. unfold map_rows. apply length_map. Qed.

Lemma map_rows_polygonal f (rows : list (Row polygon)) :
  List.filter is_polygonal (map_rows f rows) = map_rows f (List.filter is_polygonal rows).
Proof.
  unfold map_rows. induction rows as [|[[[p|geoms|]|] a] rest IH]; [reflexivity|..];
    cbn [map List.filter]; rewrite IH; reflexivity.
Qed.

Lemma map_rows_explode f (rows : list (Row polygon)) :
  map_rows f (explode rows) = explode (map_rows f rows).
Proof.
  unfold explode, map_rows. induction rows as [|[[[p|geoms|]|] a] rest IH]; [reflexivity|..];
    cbn [map concat]; rewrite map_app, IH; f_equal.
  unfold explode_row. cbn. rewrite !map_map. reflexivity.
Qed.

Lemma extruded_parts geoms h c :
  concat (map (fun p => extruded [p] h c) geoms) = extruded geoms h c.
Proof.
  induction geoms as [|p rest IH]; [reflexivity|].
  cbn [map concat]. rewrite IH, !extruded_cons.
  destruct (_polygon_to_trimesh p _); reflexivity.
Qed.

Lemma explode_scene (rows : list (Row polygon)) :
  scene_of_rows (explode rows) = scene_of_rows rows.
Proof.
  unfold scene_of_rows, explode. induction rows as [|r rest IH]; simpl; [reflexivity|].
  rewrite map_app, concat_app, IH. f_equal.
  unfold explode_row, row_meshes.
  destruct (row_geometry r) as [[p|geoms|]|] eqn:E; simpl; rewrite ?E, ?app_nil_r; try reflexivity.
  rewrite map_map. simpl. apply extruded_parts.
Qed.

Lemma explode_single (rows : list (Row polygon)) :
  Forall (fun r => is_polygonal r = true) rows ->
  Forall (fun r => is_single_polygon r = true) (explode rows).
Proof.
  unfold explode. induction 1 as [|r rest Hr _ IH]; simpl; [constructor|].
  apply Forall_app. split; [|exact IH].
  unfold explode_row. unfold is_polygonal in Hr.
  destruct (row_geometry r) as [[p|geoms|]|] eqn:E; try discriminate.
  - repeat constructor. unfold is_single_polygon. now rewrite E.
  - apply List.Forall_forall. intros r' (p & <- & _)%in_map_iff. reflexivity.
Qed.

Lemma explode_length (rows : list (Row polygon)) :
  Forall (fun r => is_polygonal r = true) rows ->
  length (explode rows) = sum_list (map row_parts rows).
Proof.
  unfold explode. induction 1 as [|r rest Hr _ IH]; simpl; [reflexivity|].
  rewrite length_app, IH. f_equal.
  unfold explode_row, row_parts. unfold is_polygonal in Hr.
  destruct (row_geometry r) as [[p|geoms|]|]; try discriminate; simpl;
    [reflexivity|apply length_map].
Qed.

Lemma explode_attrs (rows : list (Row polygon)) r :
  In r (explode rows) -> exists r0, In r0 rows /\ row_attrs r = row_attrs r0.
Proof.
  unfold explode. intros (rs & Hrs & Hin)%in_concat.
  apply in_map_iff in Hrs as (r0 & <- & Hr0).
  exists r0. split; [exact Hr0|].
  unfold explode_row in Hin.
  destruct (row_geometry r0) as [[p|geoms|]|]; simpl in Hin;
    try (destruct Hin as [<-|[]]; reflexivity).
  apply in_map_iff in Hin as (p & <- & _). reflexivity.
Qed.

Lemma map_rows_attrs f (rows : list (Row polygon)) r :
  In r (map_rows f rows) -> exists r0, In r0 rows /\ row_attrs r = row_attrs r0.
Proof.
  unfold map_rows. intros (r0 & <- & Hr0)%in_map_iff. exists r0. split; [exact Hr0|reflexivity].
Qed.

Lemma map_rows_single f (rows : list (Row polygon)) :
  Forall (fun r => is_single_polygon r = true) rows ->
  Forall (fun r => is_single_polygon r = true) (map_rows f rows).
Proof.
  unfold map_rows. intros H. apply List.Forall_map. revert H. apply List.Forall_impl.
  intros r. unfold is_single_polygon. simpl.
  destruct (row_geometry r) as [[p|geoms|]|]; simpl; auto.
Qed.

Lemma map_rows_keeps_polygonal f (rows : list (Row polygon)) :
  Forall (fun r => is_polygonal r = true) rows ->
  Forall (fun r => is_polygonal r = true) (map_rows f rows).
Proof.
  unfold map_rows. intros H. apply List.Forall_map. revert H. apply List.Forall_impl.
  intros r. unfold is_polygonal. simpl.
  destruct (row_geometry r) as [[p|geoms|]|]; simpl; auto.
Qed.

Lemma map_rows_parts f (rows : list (Row polygon)) :
  map row_parts (map_rows f rows) = map row_parts rows.
Proof.
  unfold map_rows. rewrite map_map. apply map_ext. intros r.
  unfold row_parts. simpl. destruct (row_geometry r) as [[p|geoms|]|]; simpl; try reflexivity.
  apply length_map.
Qed.

Lemma filter_polygonal (rows : list (Row polygon)) :
  Forall (fun r => is_polygonal r = true) (List.filter is_polygonal rows).
Proof. apply List.Forall_forall. intros r [_ H]%filter_In. exact H. Qed.

Lemma filter_none_polygonal (rows : list (Row polygon)) :
  Forall (fun r => is_polygonal r = false) rows -> List.filter is_polygonal rows = [].
Proof.
  induction 1 as [|r rest Hr _ IH]; [reflexivity|].
  cbn [List.filter]. rewrite Hr. exact IH.
Qed.

(** What [fetch_buildings_gdf] returns when the map library answers. *)
Lemma fetch_outcome cfg raw :
  features_from_bbox (_bbox_from_point_m (lat cfg) (lon cfg) (radius_m cfg)) = Ok raw ->
  exists target,
    metric target = true /\
    fetch_buildings_gdf cfg =
      Ok (mkGDF (Some target)
            (prepared_rows cfg
               (map_rows (transform (default EPSG4326 (gdf_crs raw)) target)
                         (List.filter is_polygonal (gdf_rows raw))))).
Proof.
  intros Hraw.
  exists (match estimate_utm_crs (assume_wgs84 raw) with
          | Ok (zone, north) => UTM zone north
          | Raise _ => EPSG3857
          end).
  split; [destruct (estimate_utm_crs _) as [[zone north]|e]; reflexivity|].
  unfold fetch_buildings_gdf. rewrite Hraw, reproject_metric_target.
  cbn [gdf_rows gdf_crs]. rewrite map_rows_polygonal. unfold prepared_rows.
  generalize (map_rows
                (transform (default EPSG4326 (gdf_crs raw))
                   match estimate_utm_crs (assume_wgs84 raw) with
                   | Ok (zone, north) => UTM zone north
                   | Raise _ => EPSG3857
                   end)
                (List.filter is_polygonal (gdf_rows raw))) as rows.
  intros [|r rest]; [|reflexivity].
  destruct (merge_multipolygons cfg), (simplify cfg); reflexivity.
Qed.

Lemma prepared_rows_polygonal cfg (rows : list (Row polygon)) :
  Forall (fun r => is_polygonal r = true) rows ->
  Forall (fun r => is_polygonal r = true) (prepared_rows cfg rows) /\
  (merge_multipolygons cfg = true ->
   Forall (fun r => is_single_polygon r = true) (prepared_rows cfg rows)).
Proof.
  intros H. unfold prepared_rows.
  assert (Hsp : forall rs : list (Row polygon),
            Forall (fun r => is_single_polygon r = true) rs ->
            Forall (fun r => is_polygonal r = true) rs).
  { intros rs. apply List.Forall_impl. intros r. unfold is_single_polygon, is_polygonal.
    destruct (row_geometry r) as [[p|geoms|]|]; auto. }
  destruct (merge_multipolygons cfg), (simplify cfg); split; intros; try discriminate;
    auto using map_rows_keeps_polygonal, map_rows_single, explode_single.
Qed.

Lemma prepared_rows_scene_merge cfg (rows : list (Row polygon)) :
  simplify cfg = false ->
  scene_of_rows (prepared_rows (with_merge true cfg) rows) =
  scene_of_rows (prepared_rows (with_merge false cfg) rows).
Proof.
  intros Hs. unfold prepared_rows, with_merge. simpl. rewrite Hs. apply explode_scene.
Qed.

(** X11: the table handed to the assembler holds polygons and multi-polygons
    only, in a metric CRS; with [merge_multipolygons] set, single
    polygons only.  Lines, points and empty cells never reach it. *)
Theorem fetched_table_is_polygonal cfg gdf :
  fetch_buildings_gdf cfg = Ok gdf ->
  Forall (fun r => is_polygonal r = true) (gdf_rows gdf) /\
  (merge_multipolygons cfg = true ->
   Forall (fun r => is_single_polygon r = true) (gdf_rows gdf)) /\
  exists c, gdf_crs gdf = Some c /\ metric c = true.
Proof.
  intros Hf.
  destruct (features_from_bbox (_bbox_from_point_m (lat cfg) (lon cfg) (radius_m cfg)))
    as [raw|e] eqn:Hraw.
  - destruct (fetch_outcome cfg raw Hraw) as (target & Hm & Heq).
    rewrite Heq in Hf. injection Hf as <-. cbn [gdf_rows gdf_crs].
    destruct (prepared_rows_polygonal cfg
                (map_rows (transform (default EPSG4326 (gdf_crs raw)) target)
                          (List.filter is_polygonal (gdf_rows raw)))) as [H1 H2].
    { apply map_rows_keeps_polygonal, filter_polygonal. }
    split; [exact H1|]. split; [exact H2|]. eauto.
  - unfold fetch_buildings_gdf in Hf. rewrite Hraw in Hf. discriminate.
Qed.

(** X12: fetching changes no tag: every row of the table carries the
    attributes of a polygonal row the map library returned, a multi-part
    footprint handing its attributes to each of its parts.  The number of
    rows is the number of polygons of those rows when multi-polygons are
    exploded, and the number of those rows otherwise. *)
Theorem fetched_rows_keep_attributes cfg raw :
  features_from_bbox (_bbox_from_point_m (lat cfg) (lon cfg) (radius_m cfg)) = Ok raw ->
  exists gdf,
    fetch_buildings_gdf cfg = Ok gdf /\
    (forall r, In r (gdf_rows gdf) ->
       exists r0, In r0 (gdf_rows raw) /\ is_polygonal r0 = true /\
                  row_attrs r = row_attrs r0) /\
    length (gdf_rows gdf) =
      if merge_multipolygons cfg
      then sum_list (map row_parts (List.filter is_polygonal (gdf_rows raw)))
      else length (List.filter is_polygonal (gdf_rows raw)).
Proof.
  intros Hraw. destruct (fetch_outcome cfg raw Hraw) as (target & _ & Heq).
  eexists. split; [exact Heq|]. cbn [gdf_rows].
  set (T := transform (default EPSG4326 (gdf_crs raw)) target).
  set (rows := List.filter is_polygonal (gdf_rows raw)).
  assert (Hpoly : Forall (fun r => is_polygonal r = true) (map_rows T rows))
    by apply map_rows_keeps_polygonal, filter_polygonal.
  split.
  - intros r Hr.
    assert (Hsrc : exists r1, In r1 (map_rows T rows) /\ row_attrs r = row_attrs r1).
    { unfold prepared_rows in Hr.
      destruct (merge_multipolygons cfg), (simplify cfg).
      - apply map_rows_attrs in Hr as (r2 & Hr2 & E2).
        apply explode_attrs in Hr2 as (r1 & Hr1 & E1). exists r1. split; congruence.
      - apply explode_attrs in Hr. exact Hr.
      - apply map_rows_attrs in Hr. exact Hr.
      - exists r. split; [exact Hr|reflexivity]. }
    destruct Hsrc as (r1 & Hr1 & E1).
    apply map_rows_attrs in Hr1 as (r0 & Hr0 & E0).
    apply filter_In in Hr0 as [Hin Hp].
    exists r0. repeat split; [exact Hin|exact Hp|congruence].
  - unfold prepared_rows.
    destruct (merge_multipolygons cfg), (simplify cfg);
      rewrite ?map_rows_length, ?(explode_length _ Hpoly), ?map_rows_parts, ?map_rows_length;
      reflexivity.
Qed.




(** X14: a table in which no row has a polygon (points, lines, empty cells, or
    no row at all) is answered like an empty area: the error that asks
    for a larger radius. *)
Theorem only_non_area_features_is_no_buildings cfg out_path raw :
  features_from_bbox (_bbox_from_point_m (lat cfg) (lon cfg) (radius_m cfg)) = Ok raw ->
  Forall (fun r => is_polygonal r = false) (gdf_rows raw) ->
  build_glb_from_osm cfg out_path = Raise (RuntimeError NO_BUILDINGS).
Proof.
  intros Hraw Hnone. destruct (fetch_outcome cfg raw Hraw) as (target & _ & Heq).
  rewrite (build_glb_outcome _ _ _ Heq). cbn [gdf_rows].
  rewrite (filter_none_polygonal _ Hnone). unfold prepared_rows.
  destruct (merge_multipolygons cfg), (simplify cfg); reflexivity.
Qed.

End FetchFacts.

Section MergeFlag.
Context `{L : Libraries}.

(** X15: without simplification, the flag [merge_multipolygons] never
    changes the scene that is exported: with it and without it a run
    exports the same scene at the same path, or fails both times. *)
Theorem merge_flag_keeps_scene cfg out_path :
  simplify cfg = false ->
  match build_glb_from_osm (with_merge true cfg) out_path,
        build_glb_from_osm (with_merge false cfg) out_path with
  | Ok e1, Ok e2 => e1 = e2
  | Raise _, Raise _ => True
  | _, _ => False
  end.
Proof.
  intros Hsimp.
  destruct (features_from_bbox (_bbox_from_point_m (lat cfg) (lon cfg) (radius_m cfg)))
    as [raw|e] eqn:Hraw.
  - destruct (fetch_outcome (with_merge true cfg) raw Hraw) as (t1 & _ & H1).
    destruct (fetch_outcome (with_merge false cfg) raw Hraw) as (t2 & _ & H2).
    assert (Ht : t1 = t2).
    { unfold fetch_buildings_gdf in H1, H2. cbn [lat lon radius_m with_merge] in H1, H2.
      rewrite Hraw in H1, H2. rewrite reproject_metric_target in H1, H2.
      cbn [gdf_rows gdf_crs] in H1, H2.
      destruct (estimate_utm_crs (assume_wgs84 raw)) as [[zone north]|e0];
        destruct (List.filter _ _); cbn in H1, H2; congruence. }
    subst t2.
    rewrite (build_glb_outcome _ _ _ H1), (build_glb_outcome _ _ _ H2). cbn [gdf_rows].
    set (rows := map_rows _ _).
    pose proof (prepared_rows_scene_merge cfg rows Hsimp) as Hs.
    destruct (prepared_rows (with_merge true cfg) rows) as [|r1 rest1] eqn:E1;
      destruct (prepared_rows (with_merge false cfg) rows) as [|r2 rest2] eqn:E2.
    + exact I.
    + change (scene_of_rows []) with (@nil (mesh * rgba)) in Hs. rewrite <- Hs. exact I.
    + change (scene_of_rows []) with (@nil (mesh * rgba)) in Hs. rewrite Hs. exact I.
    + rewrite Hs. destruct (scene_of_rows (r2 :: rest2)); [exact I|reflexivity].
  - unfold build_glb_from_osm, fetch_buildings_gdf. cbn [lat lon radius_m with_merge].
    rewrite Hraw. exact I.
Qed.

End MergeFlag.

Lemma merge_flag_keeps_scene_witness :
  build_glb_from_osm (L := toy_libraries (Ok toy_mixed_table))
                     (mkConfig 19 (-99) 500 false true) "osm_buildings.glb" =
  build_glb_from_osm (L := toy_libraries (Ok toy_mixed_table))
                     (mkConfig 19 (-99) 500 false false) "osm_buildings.glb".
Proof.
  pose proof (merge_flag_keeps_scene (L := toy_libraries (Ok toy_mixed_table))
                (mkConfig 19 (-99) 500 false true) "osm_buildings.glb" eq_refl) as H.
  vm_compute in H. vm_compute. apply (f_equal (@Ok _)). exact H.
Defined.

Lemma fetched_table_is_polygonal_witness :
  Forall (fun r => is_single_polygon r = true)
    [ mkRow (Some (Polygon (square 1))) ({[ "building" := VStr "house" ]} : attrs_t);
      mkRow (Some (Polygon sliver)) {[ "building" := VStr "house" ]};
      mkRow (Some (Polygon (square 2))) {[ "building" := VStr "house" ]};
      mkRow (Some (Polygon (square 5))) {[ "height" := VStr "20 m" ]} ].
Proof.
  refine (proj1 (proj2 (fetched_table_is_polygonal
            (L := toy_libraries (Ok toy_mixed_table))
            (mkConfig 19 (-99) 500 true true)
            (mkGDF (Some (UTM 14 true)) _) _)) eq_refl).
  vm_compute. reflexivity.
Defined.

Lemma fetched_rows_keep_attributes_witness :
  exists gdf,
    fetch_buildings_gdf (L := toy_libraries (Ok toy_mixed_table))
                        (mkConfig 19 (-99) 500 true true) = Ok gdf /\
    length (gdf_rows gdf) = 4%nat.
Proof.
  destruct (fetched_rows_keep_attributes (L := toy_libraries (Ok toy_mixed_table))
              (mkConfig 19 (-99) 500 true true) toy_mixed_table eq_refl)
    as (gdf & Hf & _ & Hlen).
  exists gdf. split; [exact Hf|exact Hlen].
Defined.

Lemma only_non_area_features_witness :
  build_glb_from_osm
    (L := toy_libraries (Ok (mkGDF None [mkRow (Some OtherGeometry) ∅; mkRow None ∅])))
    (mkConfig 19 (-99) 500 true true) "osm_buildings.glb" =
  Raise (RuntimeError NO_BUILDINGS).
Proof.
  refine (only_non_area_features_is_no_buildings
            (L := toy_libraries (Ok (mkGDF None [mkRow (Some OtherGeometry) ∅; mkRow None ∅])))
            (mkConfig 19 (-99) 500 true true) "osm_buildings.glb" _ eq_refl _).
  repeat constructor.
Defined.

(** ** The application *)


Section ApplicationFacts.
Context `{L : Libraries}.


End ApplicationFacts.


(** ** The viewer: gathering the meshes of the loaded scene *)

Lemma gather_all_snoc gs g : gather_all (gs ++ [g]) = gather_step (gather_all gs) g.
Proof. unfold gather_all. now rewrite fold_left_app. Qed.

Lemma zip_shifted (o : Z) (faces : list face) :
  zip (zip (map (fun t => (t.1.1 + o)%Z) faces) (map (fun t => (t.1.2 + o)%Z) faces))
      (map (fun t => (t.2 + o)%Z) faces) = map (shift_face o) faces.
Proof. induction faces as [|t faces IH]; [reflexivity|]. cbn. now rewrite <- IH. Qed.

Lemma zip3_app (i1 i2 j1 j2 k1 k2 : list Z) :
  length i1 = length j1 -> length i1 = length k1 ->
  zip (zip (i1 ++ i2) (j1 ++ j2)) (k1 ++ k2) = (zip (zip i1 j1) k1 ++ zip (zip i2 j2) k2)%list.
Proof.
  revert j1 k1. induction i1 as [|a i1 IH]; intros [|b j1] [|c k1]; simpl; try discriminate.
  - reflexivity.
  - intros [= H1] [= H2]. now rewrite IH.
Qed.

Lemma gather_step_skip (st : gather) (g : loaded) :
  kept_faces g = [] ->
  gather_step st g = st /\ kept_vertices g = [] /\ has_faces g = false.
Proof. destruct g as [verts [|f fs]|]; simpl; try discriminate; auto. Qed.

Lemma gather_step_keep (st : gather) (g : loaded) :
  kept_faces g <> [] ->
  gather_step st g =
    {| vertices_all := vertices_all st ++ [kept_vertices g];
       acc_i := acc_i st ++ map (fun t => (t.1.1 + offset st)%Z) (kept_faces g);
       acc_j := acc_j st ++ map (fun t => (t.1.2 + offset st)%Z) (kept_faces g);
       acc_k := acc_k st ++ map (fun t => (t.2 + offset st)%Z) (kept_faces g);
       offset := (offset st + Z.of_nat (length (kept_vertices g)))%Z |} /\
  has_faces g = true.
Proof. destruct g as [verts [|f fs]|]; simpl; try congruence; auto. Qed.

(** What the loop has gathered after the geometries [gs]. *)
Lemma gather_all_spec (gs : list loaded) :
  let st := gather_all gs in
  concat (vertices_all st) = concat (map kept_vertices gs) /\
  offset st = Z.of_nat (length (concat (map kept_vertices gs))) /\
  length (acc_i st) = length (concat (map kept_faces gs)) /\
  length (acc_j st) = length (concat (map kept_faces gs)) /\
  length (acc_k st) = length (concat (map kept_faces gs)) /\
  length (vertices_all st) = length (List.filter has_faces gs).
Proof.
  induction gs as [|g gs IH] using rev_ind; [repeat split|].
  cbv zeta in *. destruct IH as (HV & Ho & Hi & Hj & Hk & Hn).
  rewrite gather_all_snoc.
  rewrite !map_app, !concat_app, List.filter_app, !length_app. cbn [map concat List.filter].
  rewrite !app_nil_r.
  destruct (decide (kept_faces g = [])) as [E|E].
  - destruct (gather_step_skip (gather_all gs) g E) as (-> & -> & ->).
    rewrite E. simpl. rewrite !app_nil_r, !Nat.add_0_r. repeat split; assumption.
  - destruct (gather_step_keep (gather_all gs) g E) as (-> & ->).
    cbn [vertices_all acc_i acc_j acc_k offset].
    rewrite concat_app. cbn [concat]. rewrite app_nil_r, ?length_app, ?length_map.
    cbn [length]. rewrite HV, Ho, Hi, Hj, Hk, Hn. repeat split; try lia; reflexivity.
Qed.

Lemma corner_app_old (V verts : list vertex) (n : Z) :
  (0 <= n < Z.of_nat (length V))%Z -> corner (V ++ verts) n = corner V n.
Proof.
  intros Hn. unfold corner. destruct (n <? 0)%Z; [reflexivity|].
  apply lookup_app_l. lia.
Qed.

Lemma corner_app_new (V verts : list vertex) (n : Z) :
  (0 <= n)%Z -> corner (V ++ verts) (n + Z.of_nat (length V)) = corner verts n.
Proof.
  intros Hn. unfold corner.
  destruct (Z.ltb_spec n 0); [lia|]. destruct (Z.ltb_spec (n + Z.of_nat (length V)) 0); [lia|].
  rewrite lookup_app_r by lia. f_equal. lia.
Qed.

Lemma triangle_app_old (V verts : list vertex) (t : face) :
  in_range (Z.of_nat (length V)) t -> triangle_in (V ++ verts) t = triangle_in V t.
Proof.
  intros (H1 & H2 & H3). unfold triangle_in. now rewrite !corner_app_old.
Qed.

Lemma triangle_app_new (V verts : list vertex) (t : face) :
  in_range (Z.of_nat (length verts)) t ->
  triangle_in (V ++ verts) (shift_face (Z.of_nat (length V)) t) = triangle_in verts t.
Proof.
  intros (H1 & H2 & H3). unfold triangle_in, shift_face. cbn [fst snd].
  rewrite !corner_app_new by lia. reflexivity.
Qed.

Lemma well_indexed_kept (g : loaded) :
  well_indexed g -> Forall (in_range (Z.of_nat (length (kept_vertices g)))) (kept_faces g).
Proof.
  destruct g as [verts [|f fs]|]; simpl; [constructor|intros Hw; exact Hw|constructor].
Qed.

Lemma loaded_triangles_kept (g : loaded) :
  loaded_triangles g = map (triangle_in (kept_vertices g)) (kept_faces g).
Proof. destruct g as [verts [|f fs]|]; reflexivity. Qed.

(** With every face index inside its mesh: the gathered indices lie
    inside the gathered vertices, and name the same corners as before. *)
Lemma gather_all_triangles (gs : list loaded) :
  Forall well_indexed gs ->
  let st := gather_all gs in
  let V := concat (vertices_all st) in
  Forall (in_range (Z.of_nat (length V))) (acc_faces st) /\
  map (triangle_in V) (acc_faces st) = concat (map loaded_triangles gs).
Proof.
  induction gs as [|g gs IH] using rev_ind; [intros _; split; [constructor|reflexivity]|].
  intros [Hgs Hg]%Forall_app. apply Forall_cons_1 in Hg as [Hg _].
  specialize (IH Hgs). cbv zeta in *. destruct IH as [Hrange Htri].
  destruct (gather_all_spec gs) as (HV & Ho & Hi & Hj & Hk & _). cbv zeta in *.
  rewrite gather_all_snoc, map_app, concat_app.
  cbn [map concat]. rewrite app_nil_r.
  pose proof (well_indexed_kept g Hg) as Hkept.
  rewrite loaded_triangles_kept.
  destruct (decide (kept_faces g = [])) as [E|E].
  { destruct (gather_step_skip (gather_all gs) g E) as (-> & _ & _).
    rewrite E. simpl. rewrite app_nil_r. split; assumption. }
  destruct (gather_step_keep (gather_all gs) g E) as (-> & _).
  unfold acc_faces in *. cbn [vertices_all acc_i acc_j acc_k offset].
  rewrite zip3_app by congruence. rewrite zip_shifted.
  rewrite concat_app. cbn [concat]. rewrite app_nil_r.
  set (V := concat (vertices_all (gather_all gs))) in *.
  assert (Hoff : offset (gather_all gs) = Z.of_nat (length V)).
  { rewrite Ho, <- HV. reflexivity. }
  rewrite Hoff. split.
  - apply Forall_app. split.
    + revert Hrange. apply List.Forall_impl. intros t (H1 & H2 & H3).
      rewrite length_app. unfold in_range. lia.
    + apply List.Forall_map. revert Hkept. apply List.Forall_impl.
      intros t (H1 & H2 & H3). rewrite length_app. unfold in_range, shift_face. cbn [fst snd]. lia.
  - rewrite map_app, map_map. f_equal.
    + rewrite <- Htri. apply List.map_ext_Forall. revert Hrange. apply List.Forall_impl.
      intros t Ht. apply triangle_app_old. exact Ht.
    + apply List.map_ext_Forall. revert Hkept. apply List.Forall_impl.
      intros t Ht. apply triangle_app_new. exact Ht.
Qed.

Lemma lookup_map {A B} (f : A -> B) (l : list A) (n : nat) :
  map f l !! n = option_map f (l !! n).
Proof. revert n. induction l as [|a l IH]; intros [|n]; simpl; auto. Qed.

Lemma mesh_vertex_columns (V : list vertex) i j k (n : Z) :
  mesh_vertex (mkMesh3d (map (fun v => v.1.1) V) (map (fun v => v.1.2) V)
                        (map (fun v => v.2) V) i j k) n = corner V n.
Proof.
  unfold mesh_vertex, corner, vertex in *. cbn [mesh_x mesh_y mesh_z].
  destruct (n <? 0)%Z; [reflexivity|]. rewrite !lookup_map.
  destruct (V !! Z.to_nat n) as [[[x y] z]|]; reflexivity.
Qed.

Lemma filter_nil_none (gs : list loaded) :
  List.filter has_faces gs = [] -> Forall (fun g => has_faces g = false) gs.
Proof.
  induction gs as [|g gs IH]; [constructor|]. cbn [List.filter].
  destruct (has_faces g) eqn:E; [discriminate|]. intros H. constructor; auto.
Qed.

Section ViewerFacts.
Context `{L : Libraries}.

(** X17: the viewer merges the meshes of the scene into one figure.  When
    every face index lies inside its own mesh, every index of the figure
    lies inside the merged vertex columns, and the triangles of the
    figure, read through those columns, are the triangles of the meshes,
    corner by corner and in order: the offset added to the indices of
    each mesh is the number of vertices gathered before it. *)
Theorem view_glb_keeps_triangles (geoms : list loaded) :
  Forall well_indexed geoms ->
  match view_glb_click (Ok geoms) with
  | [PlotlyChart fig] =>
      mesh_triangles fig = concat (map loaded_triangles geoms) /\
      Forall (in_range (Z.of_nat (length (mesh_x fig))))
             (zip (zip (mesh_i fig) (mesh_j fig)) (mesh_k fig))
  | [Warning _] => concat (map loaded_triangles geoms) = []
  | _ => False
  end.
Proof.
  intros Hwi. destruct (gather_all_triangles geoms Hwi) as [Hrange Htri]. cbv zeta in *.
  unfold view_glb_click.
  destruct (vertices_all (gather_all geoms)) as [|v vs] eqn:E.
  - rewrite <- Htri. unfold acc_faces.
    destruct (gather_all_spec geoms) as (_ & _ & Hi & Hj & Hk & Hn). cbv zeta in *.
    rewrite E in Hn. symmetry in Hn. apply length_zero_iff_nil in Hn.
    pose proof (filter_nil_none _ Hn) as Hnone.
    assert (Hf : concat (map kept_faces geoms) = []).
    { clear -Hnone. induction Hnone as [|g gs Hg _ IH]; [reflexivity|].
      cbn [map concat]. rewrite IH, app_nil_r.
      destruct g as [verts [|f fs]|]; simpl in *; congruence. }
    rewrite Hf in Hi. apply length_zero_iff_nil in Hi. rewrite Hi. reflexivity.
  - unfold mesh_triangles. cbn [mesh_i mesh_j mesh_k mesh_x].
    rewrite length_map. split; [|exact Hrange].
    rewrite <- Htri. unfold acc_faces. apply map_ext. intros t.
    unfold triangle_in. now rewrite !mesh_vertex_columns.
Qed.

(** X18: the viewer warns exactly when no geometry of the scene has a face.
    Otherwise the figure has one vertex for each vertex of the meshes
    that have faces (a mesh without faces gives none of its vertices, a
    path or point cloud nothing) and one triangle for each of their
    faces. *)
Theorem view_glb_sizes (geoms : list loaded) :
  match view_glb_click (Ok geoms) with
  | [Warning _] => Forall (fun g => has_faces g = false) geoms
  | [PlotlyChart fig] =>
      Exists (fun g => has_faces g = true) geoms /\
      length (mesh_x fig) = length (concat (map kept_vertices geoms)) /\
      length (mesh_y fig) = length (concat (map kept_vertices geoms)) /\
      length (mesh_z fig) = length (concat (map kept_vertices geoms)) /\
      length (mesh_i fig) = length (concat (map kept_faces geoms)) /\
      length (mesh_j fig) = length (concat (map kept_faces geoms)) /\
      length (mesh_k fig) = length (concat (map kept_faces geoms))
  | _ => False
  end.
Proof.
  destruct (gather_all_spec geoms) as (HV & _ & Hi & Hj & Hk & Hn). cbv zeta in *.
  unfold view_glb_click.
  destruct (vertices_all (gather_all geoms)) as [|v vs] eqn:E.
  - symmetry in Hn. apply length_zero_iff_nil in Hn. exact (filter_nil_none _ Hn).
  - cbn [mesh_x mesh_y mesh_z mesh_i mesh_j mesh_k]. rewrite !length_map, HV.
    split; [|repeat split; assumption].
    destruct (List.filter has_faces geoms) as [|g gs] eqn:F; [discriminate|].
    assert (Hg : In g (List.filter has_faces geoms)) by (rewrite F; left; reflexivity).
    apply filter_In in Hg as [Hin Hg]. apply Exists_exists. exists g.
    split; [apply list_elem_of_In; exact Hin|exact Hg].
Qed.

End ViewerFacts.

Lemma view_glb_keeps_triangles_witness :
  mesh_triangles
    (mkMesh3d [0; 1; 0; 5; 6; 6; 5]%float [0; 0; 1; 5; 5; 6; 6]%float [0; 0; 0; 3; 3; 3; 3]%float
              [0; 3; 3]%Z [1; 4; 5]%Z [2; 5; 6]%Z) =
    [ (Some (0, 0, 0), Some (1, 0, 0), Some (0, 1, 0));
      (Some (5, 5, 3), Some (6, 5, 3), Some (6, 6, 3));
      (Some (5, 5, 3), Some (6, 6, 3), Some (5, 6, 3)) ]%float.
Proof.
  pose proof (view_glb_keeps_triangles (L := toy_libraries (Ok (toy_table [])))
    [ LoadedMesh [(0, 0, 0); (1, 0, 0); (0, 1, 0)]%float [(0, 1, 2)%Z];
      LoadedOther;
      LoadedMesh [(9, 9, 9)%float] [];
      LoadedMesh [(5, 5, 3); (6, 5, 3); (6, 6, 3); (5, 6, 3)]%float [(0, 1, 2)%Z; (0, 2, 3)%Z] ]) as H.
  cbv beta iota delta [view_glb_click gather_all fold_left gather_step vertices_all acc_i acc_j
                       acc_k offset app map concat fst snd length Z.of_nat] in H.
  simpl in H.
  refine (proj1 (H _)).
  repeat constructor; cbn; lia.
Defined.

(** ** The alphabet of numbers *)

Lemma all_chars_app p a b : all_chars p (a +:+ b) = all_chars p a && all_chars p b.
Proof. induction a as [|c a IH]; simpl; [reflexivity|]. now rewrite IH, andb_assoc. Qed.

Lemma digit_float_char c d : Py.digit_of c = Some d -> float_char c = true.
Proof. intros H. unfold float_char. rewrite H. now rewrite orb_true_r. Qed.

Lemma digits_rest_alphabet s :
  (forall acc n a n' r, Py.digits_rest s acc n = (a, n', r) ->
     exists pre, s = pre +:+ r /\ all_chars float_char pre = true) /\
  (forall c acc n a n' r, Py.digits_rest (String c s) acc n = (a, n', r) ->
     exists pre, String c s = pre +:+ r /\ all_chars float_char pre = true).
Proof.
  induction s as [|c2 s IH].
  - split.
    + intros acc n a n' r [= _ _ <-]. exists EmptyString. split; reflexivity.
    + intros c acc n a n' r. simpl.
      destruct (Py.digit_of c) as [d|] eqn:Hd.
      * intros [= _ _ <-]. exists (String c EmptyString). split; [reflexivity|].
        simpl. now rewrite (digit_float_char _ _ Hd).
      * destruct (Ascii.eqb c "_"); intros [= _ _ <-]; exists EmptyString; split; reflexivity.
  - destruct IH as [IH1 IH2]. split.
    + intros acc n a n' r. apply IH2.
    + intros c acc n a n' r. cbn [Py.digits_rest].
      destruct (Py.digit_of c) as [d|] eqn:Hd.
      * intros H. destruct (IH2 _ _ _ _ _ _ H) as (pre & E & Hp).
        exists (String c pre). split; [rewrite E; reflexivity|].
        simpl. now rewrite (digit_float_char _ _ Hd), Hp.
      * destruct (Ascii.eqb_spec c "_") as [->|Hne].
        -- destruct (Py.digit_of c2) as [d2|] eqn:Hd2.
           ++ intros H. destruct (IH1 _ _ _ _ _ H) as (pre & E & Hp).
              exists (String "_" (String c2 pre)). split; [rewrite E; reflexivity|].
              simpl. now rewrite (digit_float_char _ _ Hd2), Hp.
           ++ intros [= _ _ <-]. exists EmptyString. split; reflexivity.
        -- intros [= _ _ <-]. exists EmptyString. split; reflexivity.
Qed.

Lemma digitpart_alphabet s acc a n r :
  Py.digitpart s acc = Some (a, n, r) ->
  exists pre, s = pre +:+ r /\ all_chars float_char pre = true.
Proof.
  unfold Py.digitpart. destruct s as [|c s]; [discriminate|].
  destruct (Py.digit_of c) as [d|] eqn:Hd; [|discriminate].
  intros [= H]. destruct (proj1 (digits_rest_alphabet s) _ _ _ _ _ H) as (pre & E & Hp).
  exists (String c pre). split; [rewrite E; reflexivity|].
  simpl. now rewrite (digit_float_char _ _ Hd), Hp.
Qed.

Lemma string_app_assoc (a b c : string) : (a +:+ b) +:+ c = a +:+ (b +:+ c).
Proof.
  induction a as [|x a IH]; [reflexivity|].
  change (String x ((a +:+ b) +:+ c) = String x (a +:+ (b +:+ c))). now rewrite IH.
Qed.

Lemma number_alphabet s m k r :
  Py.number s = Some (m, k, r) ->
  exists pre, s = pre +:+ r /\ all_chars float_char pre = true.
Proof.
  unfold Py.number.
  destruct (Py.digitpart s 0) as [[[m0 n0] r0]|] eqn:H0.
  - destruct (digitpart_alphabet _ _ _ _ _ H0) as (pre0 & E0 & Hp0).
    assert (Hplain : Some (m0, 0%Z, r0) = Some (m, k, r) ->
                     exists pre, s = pre +:+ r /\ all_chars float_char pre = true).
    { intros [= _ _ <-]. exists pre0. split; assumption. }
    destruct r0 as [|c r1]; [exact Hplain|].
    destruct (Ascii.eqb_spec c ".") as [->|Hne].
    + destruct (Py.digitpart r1 m0) as [[[m1 k1] r2]|] eqn:H1.
      * intros [= _ _ <-]. destruct (digitpart_alphabet _ _ _ _ _ H1) as (pre1 & E1 & Hp1).
        exists (pre0 +:+ String "." pre1). split.
        -- rewrite E0, E1, string_app_assoc. reflexivity.
        -- rewrite all_chars_app, Hp0. simpl. exact Hp1.
      * intros [= _ _ <-]. exists (pre0 +:+ "."). split.
        -- rewrite E0, string_app_assoc. reflexivity.
        -- rewrite all_chars_app, Hp0. reflexivity.
    + destruct c as [[] [] [] [] [] [] [] []]; try exact Hplain. contradiction Hne. reflexivity.
  - destruct s as [|c r1]; [discriminate|].
    destruct (Ascii.eqb_spec c ".") as [->|Hne].
    + intros H1. destruct (digitpart_alphabet _ _ _ _ _ H1) as (pre1 & E1 & Hp1).
      exists (String "." pre1). split; [rewrite E1; reflexivity|]. simpl. exact Hp1.
    + destruct c as [[] [] [] [] [] [] [] []]; try discriminate. contradiction Hne. reflexivity.
Qed.

Lemma sign_alphabet s neg r :
  Py.sign s = (neg, r) -> exists pre, s = pre +:+ r /\ all_chars float_char pre = true.
Proof.
  unfold Py.sign. destruct s as [|c s]; [intros [= _ <-]; exists EmptyString; split; reflexivity|].
  destruct (Ascii.eqb_spec c "-") as [->|H1].
  { intros [= _ <-]. exists "-". split; reflexivity. }
  destruct (Ascii.eqb_spec c "+") as [->|H2].
  { intros [= _ <-]. exists "+". split; reflexivity. }
  destruct c as [[] [] [] [] [] [] [] []];
    try (intros [= _ <-]; exists EmptyString; split; reflexivity);
    exfalso; (apply H1; reflexivity) || (apply H2; reflexivity).
Qed.

Lemma exponent_alphabet r e : Py.exponent r = Some e -> all_chars float_char r = true.
Proof.
  unfold Py.exponent. destruct r as [|c r]; [reflexivity|].
  destruct (Ascii.eqb_spec (Py.lower_char c) "e") as [Hc|]; [|discriminate].
  destruct (Py.sign r) as [neg r'] eqn:Hs.
  destruct (sign_alphabet _ _ _ Hs) as (pre & E & Hp).
  destruct (Py.digitpart r' 0) as [[[e0 n0] rest]|] eqn:Hd; [|discriminate].
  destruct rest; [|discriminate]. intros _.
  destruct (digitpart_alphabet _ _ _ _ _ Hd) as (pre' & E' & Hp').
  simpl. rewrite E, E', !all_chars_app, Hp, Hp'. simpl. rewrite andb_true_r.
  unfold float_char. rewrite Hc. simpl. now rewrite !orb_true_r.
Qed.

Lemma all_chars_lower p s :
  all_chars p (Py.lower s) = all_chars (fun c => p (Py.lower_char c)) s.
Proof. induction s as [|c s IH]; simpl; [reflexivity|]. now rewrite IH. Qed.

Lemma all_chars_impl (p q : ascii -> bool) s :
  (forall c, p c = true -> q c = true) -> all_chars p s = true -> all_chars q s = true.
Proof.
  intros H. induction s as [|c s IH]; simpl; [reflexivity|].
  intros [Hc Hs]%andb_true_iff. now rewrite (H _ Hc), IH.
Qed.

Lemma word_alphabet body w :
  Py.lower body = w ->
  all_chars (fun c => existsb (Ascii.eqb c) ["i"; "n"; "f"; "t"; "y"; "a"]%char) w = true ->
  all_chars float_char body = true.
Proof.
  intros <-. rewrite all_chars_lower. apply all_chars_impl.
  intros c Hc. unfold float_char.
  assert (E : existsb (Ascii.eqb (Py.lower_char c))
                ["_"; "."; "+"; "-"; "e"; "i"; "n"; "f"; "t"; "y"; "a"]%char = true).
  { revert Hc. generalize (Py.lower_char c) as l. intros l. simpl.
    destruct (Ascii.eqb l "i"), (Ascii.eqb l "n"), (Ascii.eqb l "f"),
             (Ascii.eqb l "t"), (Ascii.eqb l "y"), (Ascii.eqb l "a");
      simpl; try discriminate; intros _; now rewrite ?orb_true_r. }
  rewrite E. now rewrite !orb_true_r.
Qed.

Lemma lstrip_alphabet (p : ascii -> bool) s :
  (forall c, Py.is_space c = true -> p c = true) ->
  all_chars p (Py.lstrip s) = true -> all_chars p s = true.
Proof.
  intros Hsp. induction s as [|c s IH]; simpl; [reflexivity|].
  destruct (Py.is_space c) eqn:E.
  - intros H. now rewrite (Hsp _ E), IH.
  - simpl. exact id.
Qed.

Lemma rstrip_alphabet (p : ascii -> bool) s :
  (forall c, Py.is_space c = true -> p c = true) ->
  all_chars p (Py.rstrip s) = true -> all_chars p s = true.
Proof.
  intros Hsp. induction s as [|c s IH]; simpl; [reflexivity|].
  destruct (Py.rstrip s) as [|c' r] eqn:E.
  - destruct (Py.is_space c) eqn:Ec; simpl.
    + intros _. now rewrite (Hsp _ Ec), IH.
    + rewrite andb_true_r. intros ->. now rewrite IH.
  - simpl. intros [Hc Hr]%andb_true_iff. rewrite Hc. simpl. apply IH. exact Hr.
Qed.

(** A text that [float] accepts is made of characters of the alphabet of
    numbers only. *)
Lemma float_of_string_alphabet s x :
  Py.float_of_string s = Ok x -> all_chars float_char s = true.
Proof.
  unfold Py.float_of_string.
  destruct (Py.sign (Py.strip s)) as [neg body] eqn:Hs.
  destruct (sign_alphabet _ _ _ Hs) as (pre & E & Hp).
  assert (Hbody : all_chars float_char body = true -> all_chars float_char s = true).
  { intros Hb.
    assert (Hsp : forall c, Py.is_space c = true -> float_char c = true)
      by (intros c Hc; unfold float_char; now rewrite Hc).
    apply (lstrip_alphabet _ _ Hsp), (rstrip_alphabet _ _ Hsp).
    fold (Py.strip s). rewrite E, all_chars_app, Hp, Hb. reflexivity. }
  destruct (String.eqb_spec (Py.lower body) "inf") as [H1|_].
  { intros _. apply Hbody. eapply word_alphabet; [exact H1|reflexivity]. }
  destruct (String.eqb_spec (Py.lower body) "infinity") as [H2|_].
  { intros _. apply Hbody. eapply word_alphabet; [exact H2|reflexivity]. }
  simpl.
  destruct (String.eqb_spec (Py.lower body) "nan") as [H3|_].
  { intros _. apply Hbody. eapply word_alphabet; [exact H3|reflexivity]. }
  destruct (Py.number body) as [[[m k] r]|] eqn:Hn; [|discriminate].
  destruct (Py.exponent r) as [e|] eqn:He; [|discriminate].
  intros _. apply Hbody.
  destruct (number_alphabet _ _ _ _ Hn) as (pre' & E' & Hp').
  rewrite E', all_chars_app, Hp'. simpl. exact (exponent_alphabet _ _ He).
Qed.



Lemma space_float_char c : Py.is_space c = true -> float_char c = true.
Proof. intros Hc. unfold float_char. now rewrite Hc. Qed.

Lemma strip_alphabet s :
  all_chars float_char (Py.strip s) = true -> all_chars float_char s = true.
Proof.
  intros H. apply (lstrip_alphabet _ _ space_float_char).
  apply (rstrip_alphabet _ _ space_float_char). exact H.
Qed.





(** ** Reading a number with units *)

Example leer_float_ex1 : leer_float_con_unidades "1,250.5 m2" = Ok 1250.5%float.
Proof. vm_compute. reflexivity. Qed.
Example leer_float_ex2 : leer_float_con_unidades "35 m" = Ok 35%float.
Proof. vm_compute. reflexivity. Qed.
Example leer_float_ex3 : leer_float_con_unidades "120m²" = Ok 120%float.
Proof. vm_compute. reflexivity. Qed.

Lemma drop_chars_length n s : (String.length (drop_chars n s) <= String.length s)%nat.
Proof.
  revert s. induction n as [|n IH]; intros [|c s]; simpl; try lia.
  specialize (IH s). lia.
Qed.

(** More fuel than the length of the text changes nothing. *)
Lemma remove_fuel_enough old f1 f2 s :
  old <> EmptyString ->
  (String.length s <= f1)%nat -> (String.length s <= f2)%nat ->
  remove_fuel f1 old s = remove_fuel f2 old s.
Proof.
  intros Hold. revert f2 s. induction f1 as [|f1 IH]; intros f2 s H1 H2.
  - destruct s; [|simpl in H1; lia]. destruct f2; reflexivity.
  - destruct f2 as [|f2]; [destruct s; [reflexivity|simpl in H2; lia]|].
    destruct s as [|c s]; [reflexivity|]. cbn [remove_fuel]. simpl in H1, H2.
    destruct (is_prefix old (String c s)).
    + destruct old as [|o old]; [congruence|]. cbn [String.length drop_chars].
      pose proof (drop_chars_length (String.length old) s). apply IH; lia.
    + f_equal. apply IH; lia.
Qed.

Lemma str_remove_cons old c s :
  old <> EmptyString ->
  str_remove old (String c s) =
    if is_prefix old (String c s)
    then str_remove old (drop_chars (String.length old) (String c s))
    else String c (str_remove old s).
Proof.
  intros Hold. unfold str_remove. destruct old as [|o old]; [congruence|].
  cbn [String.length remove_fuel].
  destruct (is_prefix (String o old) (String c s)); [|reflexivity].
  cbn [drop_chars]. pose proof (drop_chars_length (String.length old) s).
  apply remove_fuel_enough; [discriminate|lia|lia].
Qed.

Lemma str_remove_char x s : str_remove (String x EmptyString) s = remove_char x s.
Proof.
  induction s as [|c s IH]; [reflexivity|].
  rewrite str_remove_cons by discriminate. cbn [is_prefix remove_char String.length drop_chars].
  rewrite andb_true_r, (Ascii.eqb_sym x c), IH. reflexivity.
Qed.

Lemma remove_char_app x a b : remove_char x (a +:+ b) = remove_char x a +:+ remove_char x b.
Proof.
  induction a as [|c a IH]; [reflexivity|].
  change (String c a +:+ b) with (String c (a +:+ b)). cbn [remove_char].
  destruct (Ascii.eqb c x); rewrite IH; reflexivity.
Qed.

Lemma remove_char_no_char x s : has_char x (remove_char x s) = false.
Proof.
  induction s as [|c s IH]; [reflexivity|]. cbn [remove_char].
  destruct (Ascii.eqb c x) eqn:E; [exact IH|]. cbn [has_char]. now rewrite E, IH.
Qed.

Lemma has_char_prefix c old s :
  is_prefix old s = true ->
  has_char c s = has_char c old || has_char c (drop_chars (String.length old) s).
Proof.
  revert s. induction old as [|o old IH]; intros s; [reflexivity|].
  destruct s as [|x s]; [discriminate|]. cbn [is_prefix has_char String.length drop_chars].
  intros [Hx Hp]%andb_true_iff. apply Ascii.eqb_eq in Hx as ->.
  rewrite (IH _ Hp). now rewrite orb_assoc.
Qed.

(** Cutting out [old] keeps and adds no character that is not in [old]. *)
Lemma has_char_str_remove c old s :
  has_char c old = false -> has_char c (str_remove old s) = has_char c s.
Proof.
  intros Hc. destruct old as [|o old]; [reflexivity|].
  remember (String.length s) as n eqn:Hn.
  assert (Hle : (String.length s <= n)%nat) by lia. clear Hn.
  revert s Hle. induction n as [|n IH]; intros s Hle.
  - destruct s; [reflexivity|simpl in Hle; lia].
  - destruct s as [|x s]; [reflexivity|]. rewrite str_remove_cons by discriminate.
    destruct (is_prefix (String o old) (String x s)) eqn:Hp.
    + rewrite (has_char_prefix c _ _ Hp), Hc. cbn [orb String.length drop_chars].
      pose proof (drop_chars_length (String.length old) s). simpl in Hle.
      apply IH. lia.
    + cbn [has_char]. f_equal. apply IH. simpl in Hle. lia.
Qed.

Lemma str_remove_absent_head o old s :
  has_char o s = false -> str_remove (String o old) s = s.
Proof.
  induction s as [|x s IH]; [reflexivity|]. cbn [has_char].
  intros [Hx Hs]%orb_false_iff. rewrite str_remove_cons by discriminate.
  cbn [is_prefix]. rewrite (Ascii.eqb_sym o x), Hx. cbn [andb]. now rewrite IH.
Qed.

Lemma has_char_app c a b : has_char c (a +:+ b) = has_char c a || has_char c b.
Proof.
  induction a as [|x a IH]; [reflexivity|].
  change (String x a +:+ b) with (String x (a +:+ b)). cbn [has_char].
  now rewrite IH, orb_assoc.
Qed.

Lemma has_char_not_all c p s :
  has_char c s = true -> p c = false -> all_chars p s = false.
Proof.
  intros Hs Hp. induction s as [|x s IH]; [discriminate|]. cbn [has_char all_chars] in *.
  destruct (Ascii.eqb_spec x c) as [->|_]; [now rewrite Hp|].
  rewrite (IH Hs). apply andb_false_r.
Qed.

(** X20: in [leer_float_con_unidades] the removal of the word metros
    comes after the removal of the letter m and so never finds its word:
    the number read is the one read without that step, and an answer that
    holds the word metros is refused with [ValueError]. *)
Theorem leer_float_metros_never_removed :
  (forall valor,
     leer_float_con_unidades valor =
       Py.float_of_string
         (Py.strip (str_remove "m" (str_remove "m2" (str_remove "m²" (str_remove "," valor)))))) /\
  (forall a b, exists msg,
     leer_float_con_unidades (a +:+ "metros" +:+ b) = Raise (ValueError msg)).
Proof.
  assert (Hdead : forall valor,
            leer_float_con_unidades valor =
              Py.float_of_string
                (Py.strip (str_remove "m" (str_remove "m2" (str_remove "m²" (str_remove "," valor)))))).
  { intros valor. unfold leer_float_con_unidades. cbv zeta.
    rewrite (str_remove_absent_head "m" "etros"); [reflexivity|].
    rewrite str_remove_char. apply remove_char_no_char. }
  split; [exact Hdead|]. intros a b. rewrite Hdead.
  set (t := str_remove "m" _).
  assert (Hr : has_char "r" t = true).
  { unfold t. rewrite !has_char_str_remove by reflexivity.
    rewrite !has_char_app. cbn. now rewrite orb_true_r. }
  destruct (Py.float_of_string (Py.strip t)) as [x|e] eqn:E.
  - apply float_of_string_alphabet, strip_alphabet in E.
    rewrite (has_char_not_all "r" float_char t Hr eq_refl) in E. discriminate.
  - destruct (float_of_string_raises _ _ E) as [msg ->]. eauto.
Qed.

(** X21: [leer_float_con_unidades] drops every comma before it reads the
    number, wherever the comma stands: a thousands separator goes, and so
    does a decimal comma, so that 12,5 is read as 125. *)
Theorem leer_float_drops_commas :
  (forall a b,
     leer_float_con_unidades (a +:+ "," +:+ b) = leer_float_con_unidades (a +:+ b)) /\
  leer_float_con_unidades "12,5" = Ok 125%float.
Proof.
  split; [|vm_compute; reflexivity].
  intros a b. unfold leer_float_con_unidades. cbv zeta.
  rewrite !(str_remove_char ","), !remove_char_app. reflexivity.
Qed.
